(** * tasker-proxy: admission control of the apiProxy cloud function

    A shallow embedding of [src/src/index.ts] and of its JavaScript twin
    [src/index.js]: the identity resolution at the head of [apiProxy], the
    throttling function [checkAndRecordUsage] with its Firestore
    transaction, and the route dispatch at the tail of [apiProxy].

    - Strings are [string], a sequence of 8-bit code units.  Node decodes
      header values as latin1, so nothing of a header is lost.
    - A value of type [string | undefined] is an [Ecma.value].
    - The stored [count] field is an integer: the controller only ever
      writes [count + 1], starting from an absent document.
    - The Firestore database is a finite map from document references to
      documents.  A transaction is a small state-and-error monad over a
      snapshot of it, with buffered writes that are applied together at
      commit.  Transactions are serializable, so calls are served one
      transaction after the other.
    - What lies outside the program is an input of each call: the clock,
      whether the infrastructure lets the transaction through, and what
      the providers answer.  Logging is left out. *)

From Stdlib Require Import ZArith Ascii String Lia.
From stdpp Require Import base strings gmap list.

Local Open Scope Z_scope.

(** ** JavaScript string primitives used by the program *)

Module Ecma.

(** A value that is either [undefined] or a string: the type
    [string | undefined] of [req.ip] and of [req.get(...)]. *)
Inductive value :=
| undefined
| str (s : string).

(** [`${v}`]: the template literal's string conversion. *)
Definition toString (v : value) : string :=
  match v with
  | undefined => "undefined"
  | str s => s
  end.

(** [v || ""] *)
Definition orEmpty (v : value) : string :=
  match v with
  | undefined => ""
  | str s => s
  end.

(** [s.split(sep)[0]] for a one-character separator: what stands before
    the first [sep], the whole of [s] when there is none. *)
Fixpoint splitHead (sep : ascii) (s : string) : string :=
  match s with
  | EmptyString => EmptyString
  | String c r =>
      if Ascii.eqb c sep then EmptyString else String c (splitHead sep r)
  end.

(** The white space of ECMAScript that fits in one byte: TAB, LF, VT, FF,
    CR, SP and NBSP. *)
Definition isWhiteSpace (c : ascii) : bool :=
  match N_of_ascii c with
  | 9%N | 10%N | 11%N | 12%N | 13%N | 32%N | 160%N => true
  | _ => false
  end.

Fixpoint trimStart (s : string) : string :=
  match s with
  | EmptyString => EmptyString
  | String c r => if isWhiteSpace c then trimStart r else s
  end.

Fixpoint trimEnd (s : string) : string :=
  match s with
  | EmptyString => EmptyString
  | String c r =>
      match trimEnd r with
      | EmptyString =>
          if isWhiteSpace c then EmptyString else String c EmptyString
      | r' => String c r'
      end
  end.

(** [s.trim()] *)
Definition trim (s : string) : string := trimEnd (trimStart s).

Fixpoint startsWith (s p : string) : bool :=
  match p, s with
  | EmptyString, _ => true
  | String _ _, EmptyString => false
  | String a p', String b s' => Ascii.eqb a b && startsWith s' p'
  end.

(** [s.includes(sub)] *)
Fixpoint includes (s sub : string) : bool :=
  startsWith s sub ||
  match s with
  | EmptyString => false
  | String _ r => includes r sub
  end.

(** [arr.includes(v)] on an array of strings: strict equality with some
    element, so [undefined] is in no such array. *)
Definition arrayIncludes (arr : list string) (v : value) : bool :=
  match v with
  | undefined => false
  | str s => existsb (String.eqb s) arr
  end.

End Ecma.

(** ** Errors and results *)

Inductive Error :=
| StoreUnavailable
| CommitFailed
| ProviderFailed.

(** The outcome of a computation that may throw (of a promise that may
    reject). *)
Inductive Result (A : Type) :=
| Ok (a : A)
| Threw (e : Error).
Arguments Ok {A} a.
Arguments Threw {A} e.

(** [try { body } catch (e) { handler }] *)
Definition tryCatch {A : Type} (body : Result A) (handler : Error -> A)
    : Result A :=
  match body with
  | Ok a => Ok a
  | Threw e => Ok (handler e)
  end.

(** ** The Firestore database *)

(** [interface UsageDocument { count: number }] *)
Record UsageDocument := { count : Z }.

(** [firestore.collection(c).doc(id)]: a collection name and a document
    id.  Which ids the client library accepts is not part of the model. *)
Abbreviation DocumentReference := (string * string)%type.

Definition doc (collection id : string) : DocumentReference := (collection, id).

Abbreviation Firestore := (gmap (string * string) UsageDocument).

(** What the infrastructure does to one transaction: nothing, the [k]-th
    read fails (time-out, store unavailable), or the commit fails
    (contention exhausted, store unavailable). *)
Inductive Infra :=
| Healthy
| ReadFault (k : nat)
| CommitFault.

(** The store operations a call issues, in order. *)
Inductive StoreOp :=
| OpGet (r : DocumentReference)
| OpSet (r : DocumentReference) (d : UsageDocument).

(** The state of a running transaction: the snapshot it reads from, the
    number of reads done, the buffered writes and the operations so far. *)
Record Transaction := {
  snapshot : Firestore;
  weather : Infra;
  readsDone : nat;
  pending : list (DocumentReference * UsageDocument);
  issued : list StoreOp
}.

Definition Tx (A : Type) : Type := Transaction -> Result A * Transaction.

Definition tx_ret {A : Type} (a : A) : Tx A := fun t => (Ok a, t).

Definition tx_bind {A B : Type} (m : Tx A) (k : A -> Tx B) : Tx B :=
  fun t =>
    match m t with
    | (Ok a, t') => k a t'
    | (Threw e, t') => (Threw e, t')
    end.

Notation "'await' x ':=' m 'in' k" := (tx_bind m (fun x => k))
  (at level 10, x name, m at level 100, k at level 200, only parsing).
Notation "'perform' m 'in' k" := (tx_bind m (fun _ => k))
  (at level 10, m at level 100, k at level 200, only parsing).

Definition readFails (w : Infra) (n : nat) : bool :=
  match w with
  | ReadFault k => Nat.eqb k n
  | _ => false
  end.

(** [await transaction.get(ref)]: the document snapshot, [None] when the
    document does not exist. *)
Definition tx_get (r : DocumentReference) : Tx (option UsageDocument) :=
  fun t =>
    let t' := {| snapshot := snapshot t; weather := weather t;
                 readsDone := S (readsDone t); pending := pending t;
                 issued := issued t ++ [OpGet r] |} in
    if readFails (weather t) (readsDone t)
    then (Threw StoreUnavailable, t')
    else (Ok (snapshot t !! r), t').

(** [transaction.set(ref, data, { merge: true })]: buffered until commit. *)
Definition tx_set (r : DocumentReference) (d : UsageDocument) : Tx unit :=
  fun t =>
    (Ok tt, {| snapshot := snapshot t; weather := weather t;
               readsDone := readsDone t; pending := pending t ++ [(r, d)];
               issued := issued t ++ [OpSet r d] |}).

(** Merging [{ count: n }] into a document whose only field is [count]
    replaces it; an absent document is created. *)
Definition commitWrites (ws : list (DocumentReference * UsageDocument))
    (fs : Firestore) : Firestore :=
  foldl (fun acc w => <[w.1 := w.2]> acc) fs ws.

Definition beginTransaction (fs : Firestore) (w : Infra) : Transaction :=
  {| snapshot := fs; weather := w; readsDone := 0%nat; pending := [];
     issued := [] |}.

(** [firestore.runTransaction(updateFunction)]: the update function runs
    against a snapshot; its writes are applied together at commit, or not
    at all when the function throws or the commit fails. *)
Definition runTransaction {A : Type} (fs : Firestore) (w : Infra)
    (updateFunction : Tx A) : Result A * Firestore * list StoreOp :=
  match updateFunction (beginTransaction fs w) with
  | (Threw e, t) => (Threw e, fs, issued t)
  | (Ok a, t) =>
      match w with
      | CommitFault => (Threw CommitFailed, fs, issued t)
      | _ => (Ok a, commitWrites (pending t) fs, issued t)
      end
  end.

(** ** Configuration, clock and requests *)

(** What is fixed at process start: [whitelist.json]'s [ips] and the
    environment variable [BYPASS_RATE_LIMITING]. *)
Record Config := {
  WHITELISTED_IPS : list string;
  env_BYPASS_RATE_LIMITING : Ecma.value
}.

(** What one call finds outside the program: [new Date().toISOString()] and
    the state of the store's infrastructure. *)
Record World := {
  isoNow : string;
  infra : Infra
}.

(** [process.env.BYPASS_RATE_LIMITING === "true"] *)
Definition BYPASS_RATE_LIMITING (cfg : Config) : bool :=
  match env_BYPASS_RATE_LIMITING cfg with
  | Ecma.str s => String.eqb s "true"
  | Ecma.undefined => false
  end.

Definition IP_LIMIT : Z := 100.
Definition GLOBAL_LIMIT : Z := 1000.

(** [new Date().toISOString().split("T")[0]] *)
Definition todayOf (w : World) : string := Ecma.splitHead "T"%char (isoNow w).

(** [doc.exists ? doc.data().count : 0] *)
Definition countOf (d : option UsageDocument) : Z :=
  match d with
  | Some u => count u
  | None => 0
  end.

(** [interface UserData { prompt: string }] *)
Record UserData := { prompt : string }.

(** The parts of the Express request the program reads: [req.ip],
    [req.get("X-Forwarded-For")], [req.path] and [req.body]. *)
Record Request := {
  ip : Ecma.value;
  xForwardedFor : Ecma.value;
  path : string;
  body : UserData
}.

Inductive Body :=
| SendText (s : string)
| SendJson (key value : string).

Record Response := {
  status : Z;
  contentType : option string;
  sent : Body
}.

(** The three providers, as seen from the handlers: what the call for a
    prompt gives back, or that it throws. *)
Record Providers := {
  synthesize : string -> Result string;
  chatCompletion : string -> Result string;
  generateContent : string -> Result string
}.

Inductive ProviderCall :=
| CallTTS (text : string)
| CallOpenAI (prompt : string)
| CallGemini (prompt : string).

Definition deny429 : Response :=
  {| status := 429; contentType := None;
     sent := SendJson "error" "Rate limit exceeded." |}.

Definition notFound404 : Response :=
  {| status := 404; contentType := None;
     sent := SendJson "error" "Endpoint not found." |}.

Definition error500 : Response :=
  {| status := 500; contentType := None;
     sent := SendJson "error" "An internal server error occurred." |}.

(** ** src/src/index.ts *)

Module TS.

(** Lines 65-70: the address the request is attributed to.  The test
    [if (forwardedFor)] holds of a non-empty string only. *)
Definition ipAddressOf (req : Request) : Ecma.value :=
  let ipAddress := ip req in
  let forwardedFor := xForwardedFor req in
  match forwardedFor with
  | Ecma.str (String _ _ as f) =>
      Ecma.str (Ecma.trim (Ecma.splitHead ","%char f))
  | _ => ipAddress
  end.

(** Lines 152-192: the update function handed to [runTransaction]. *)
Definition updateFunction (ipDocRef globalDocRef : DocumentReference)
    : Tx bool :=
  await ipDoc := tx_get ipDocRef in
  await globalDoc := tx_get globalDocRef in
  let ipCount := countOf ipDoc in
  let globalCount := countOf globalDoc in
  if ipCount >=? IP_LIMIT then tx_ret false
  else if globalCount >=? GLOBAL_LIMIT then tx_ret false
  else
    perform tx_set ipDocRef {| count := ipCount + 1 |} in
    perform tx_set globalDocRef {| count := globalCount + 1 |} in
    tx_ret true.

(** Lines 104-208. *)
Definition checkAndRecordUsage (cfg : Config) (w : World) (fs : Firestore)
    (ipAddress : string) : Result bool * Firestore * list StoreOp :=
  if BYPASS_RATE_LIMITING cfg then (Ok true, fs, [])
  else
    let isWhitelisted :=
      Ecma.arrayIncludes (WHITELISTED_IPS cfg) (Ecma.str ipAddress) in
    if isWhitelisted then (Ok true, fs, [])
    else
      let today := todayOf w in
      let ipDocRef := doc "ip-usage" (ipAddress +:+ "_" +:+ today) in
      let globalDocRef := doc "global-usage" today in
      match runTransaction fs (infra w)
              (updateFunction ipDocRef globalDocRef) with
      | (result, fs', ops) => (tryCatch result (fun _ => false), fs', ops)
      end.

Definition handleTTS (p : Providers) (text : string) : Result string :=
  synthesize p text.
Definition handleOpenAI (p : Providers) (prompt : string) : Result string :=
  chatCompletion p prompt.
Definition handleGemini (p : Providers) (prompt : string) : Result string :=
  generateContent p prompt.

(** Lines 84-100: the route is chosen by the first of ["/tts"],
    ["/openai"], ["/gemini"] that the path includes; whatever a handler
    throws becomes a 500. *)
Definition dispatch (p : Providers) (path : string) (userData : UserData)
    : Response * list ProviderCall :=
  if Ecma.includes path "/tts" then
    match handleTTS p (prompt userData) with
    | Ok base64Audio =>
        ({| status := 200; contentType := Some "text/plain";
            sent := SendText base64Audio |}, [CallTTS (prompt userData)])
    | Threw _ => (error500, [CallTTS (prompt userData)])
    end
  else if Ecma.includes path "/openai" then
    match handleOpenAI p (prompt userData) with
    | Ok textResponse =>
        ({| status := 200; contentType := None;
            sent := SendJson "reply" textResponse |},
         [CallOpenAI (prompt userData)])
    | Threw _ => (error500, [CallOpenAI (prompt userData)])
    end
  else if Ecma.includes path "/gemini" then
    match handleGemini p (prompt userData) with
    | Ok textResponse =>
        ({| status := 200; contentType := None;
            sent := SendJson "reply" textResponse |},
         [CallGemini (prompt userData)])
    | Threw _ => (error500, [CallGemini (prompt userData)])
    end
  else (notFound404, []).

(** Lines 51-101: the entry point.  A rejection of [checkAndRecordUsage]
    is outside every [try] and would leave the handler unanswered. *)
Definition apiProxy (cfg : Config) (w : World) (p : Providers)
    (fs : Firestore) (req : Request)
    : Result Response * Firestore * list StoreOp * list ProviderCall :=
  let ipAddress := ipAddressOf req in
  match checkAndRecordUsage cfg w fs (Ecma.orEmpty ipAddress) with
  | (Threw e, fs', ops) => (Threw e, fs', ops, [])
  | (Ok isAllowed, fs', ops) =>
      if negb isAllowed then (Ok deny429, fs', ops, [])
      else
        let '(res, calls) := dispatch p (path req) (body req) in
        (Ok res, fs', ops, calls)
  end.

End TS.

(** ** src/index.js *)

Module JS.

(** Lines 32-37: the same text as in the TypeScript file. *)
Definition ipAddressOf (req : Request) : Ecma.value :=
  let ipAddress := ip req in
  let forwardedFor := xForwardedFor req in
  match forwardedFor with
  | Ecma.str (String _ _ as f) =>
      Ecma.str (Ecma.trim (Ecma.splitHead ","%char f))
  | _ => ipAddress
  end.

(** Lines 118-158. *)
Definition updateFunction (ipDocRef globalDocRef : DocumentReference)
    : Tx bool :=
  await ipDoc := tx_get ipDocRef in
  await globalDoc := tx_get globalDocRef in
  let ipCount := countOf ipDoc in
  let globalCount := countOf globalDoc in
  if ipCount >=? IP_LIMIT then tx_ret false
  else if globalCount >=? GLOBAL_LIMIT then tx_ret false
  else
    perform tx_set ipDocRef {| count := ipCount + 1 |} in
    perform tx_set globalDocRef {| count := globalCount + 1 |} in
    tx_ret true.

(** Lines 70-174.  The argument is whatever [apiProxy] computed, possibly
    [undefined]; the template literal of the document id converts it. *)
Definition checkAndRecordUsage (cfg : Config) (w : World) (fs : Firestore)
    (ipAddress : Ecma.value) : Result bool * Firestore * list StoreOp :=
  if BYPASS_RATE_LIMITING cfg then (Ok true, fs, [])
  else
    let isWhitelisted := Ecma.arrayIncludes (WHITELISTED_IPS cfg) ipAddress in
    if isWhitelisted then (Ok true, fs, [])
    else
      let today := todayOf w in
      let ipDocRef :=
        doc "ip-usage" (Ecma.toString ipAddress +:+ "_" +:+ today) in
      let globalDocRef := doc "global-usage" today in
      match runTransaction fs (infra w)
              (updateFunction ipDocRef globalDocRef) with
      | (result, fs', ops) => (tryCatch result (fun _ => false), fs', ops)
      end.

Definition handleTTS (p : Providers) (text : string) : Result string :=
  synthesize p text.
Definition handleOpenAI (p : Providers) (prompt : string) : Result string :=
  chatCompletion p prompt.
Definition handleGemini (p : Providers) (prompt : string) : Result string :=
  generateContent p prompt.

(** Lines 50-66. *)
Definition dispatch (p : Providers) (path : string) (userData : UserData)
    : Response * list ProviderCall :=
  if Ecma.includes path "/tts" then
    match handleTTS p (prompt userData) with
    | Ok base64Audio =>
        ({| status := 200; contentType := Some "text/plain";
            sent := SendText base64Audio |}, [CallTTS (prompt userData)])
    | Threw _ => (error500, [CallTTS (prompt userData)])
    end
  else if Ecma.includes path "/openai" then
    match handleOpenAI p (prompt userData) with
    | Ok textResponse =>
        ({| status := 200; contentType := None;
            sent := SendJson "reply" textResponse |},
         [CallOpenAI (prompt userData)])
    | Threw _ => (error500, [CallOpenAI (prompt userData)])
    end
  else if Ecma.includes path "/gemini" then
    match handleGemini p (prompt userData) with
    | Ok textResponse =>
        ({| status := 200; contentType := None;
            sent := SendJson "reply" textResponse |},
         [CallGemini (prompt userData)])
    | Threw _ => (error500, [CallGemini (prompt userData)])
    end
  else (notFound404, []).

(** Lines 18-67: as in the TypeScript file, but [ipAddress] is handed to
    [checkAndRecordUsage] as it is (line 44), with no [|| ""]. *)
Definition apiProxy (cfg : Config) (w : World) (p : Providers)
    (fs : Firestore) (req : Request)
    : Result Response * Firestore * list StoreOp * list ProviderCall :=
  let ipAddress := ipAddressOf req in
  match checkAndRecordUsage cfg w fs ipAddress with
  | (Threw e, fs', ops) => (Threw e, fs', ops, [])
  | (Ok isAllowed, fs', ops) =>
      if negb isAllowed then (Ok deny429, fs', ops, [])
      else
        let '(res, calls) := dispatch p (path req) (body req) in
        (Ok res, fs', ops, calls)
  end.

End JS.

(** ** Counters, periods and runs of calls *)

Definition ipUsageRef (id today : string) : DocumentReference :=
  doc "ip-usage" (id +:+ "_" +:+ today).

Definition globalUsageRef (today : string) : DocumentReference :=
  doc "global-usage" today.

(** The two counters a call for document id [id] in period [today] sees. *)
Definition ipCountIn (fs : Firestore) (id today : string) : Z :=
  countOf (fs !! ipUsageRef id today).

Definition globalCountIn (fs : Firestore) (today : string) : Z :=
  countOf (fs !! globalUsageRef today).

(** The transaction a call for document id [id] runs, before its
    [try]/[catch]. *)
Definition transactionOf (id : string) (w : World) (fs : Firestore)
    : Result bool * Firestore * list StoreOp :=
  runTransaction fs (infra w)
    (TS.updateFunction (ipUsageRef id (todayOf w))
                       (globalUsageRef (todayOf w))).

(** The same within its [try]/[catch]. *)
Definition quota (id : string) (w : World) (fs : Firestore)
    : Result bool * Firestore * list StoreOp :=
  match transactionOf id w fs with
  | (result, fs', ops) => (tryCatch result (fun _ => false), fs', ops)
  end.

(** A transaction is struck by the infrastructure when one of the two reads
    of the update function fails or the commit does. *)
Definition struck (i : Infra) : bool :=
  match i with
  | Healthy => false
  | ReadFault k => (k <? 2)%nat
  | CommitFault => true
  end.

(** ** The store between calls *)

(** No per-caller document counts more than the per-caller limit and no
    global document more than the global limit; an absent document counts
    for zero. *)
Definition withinLimits (fs : Firestore) : Prop :=
  forall docId : string,
    countOf (fs !! doc "ip-usage" docId) <= IP_LIMIT /\
    countOf (fs !! doc "global-usage" docId) <= GLOBAL_LIMIT.

Definition isAdmitted (r : Result bool) : bool :=
  match r with
  | Ok true => true
  | _ => false
  end.

Section Serving.

Context {Client : Type} `{EqDecision Client}.

(** The admission function of one of the two files, its configuration
    fixed. *)
Variable admission :
  World -> Firestore -> Client -> Result bool * Firestore * list StoreOp.

(** Calls served one after the other, each transaction on the store the
    previous one left: the decisions in order, and the final store. *)
Fixpoint serve (calls : list (Client * World)) (fs : Firestore)
    : list (Result bool) * Firestore :=
  match calls with
  | [] => ([], fs)
  | (c, w) :: rest =>
      let '(r, fs', _) := admission w fs c in
      let '(rs, fs'') := serve rest fs' in
      (r :: rs, fs'')
  end.

(** How many of the calls of caller [c] were admitted. *)
Fixpoint admittedCalls (c : Client) (calls : list (Client * World))
    (rs : list (Result bool)) : nat :=
  match calls, rs with
  | (c', _) :: calls', r :: rs' =>
      ((if bool_decide (c' = c) && isAdmitted r then 1 else 0)
       + admittedCalls c calls' rs')%nat
  | _, _ => 0%nat
  end.

End Serving.

(** ** What the string primitives are meant to compute *)

(** [sub] occurs somewhere in [s]. *)
Definition contains (s sub : string) : Prop :=
  exists pre post, s = pre +:+ sub +:+ post.

(** The character [c] occurs in [s]. *)
Fixpoint mentions (c : ascii) (s : string) : Prop :=
  match s with
  | EmptyString => False
  | String d r => d = c \/ mentions c r
  end.

(** [e] is the first of the entries of [s] that [sep] separates. *)
Definition firstEntry (sep : ascii) (s e : string) : Prop :=
  ~ mentions sep e /\ (s = e \/ exists rest, s = e +:+ String sep rest).

Fixpoint allWhite (s : string) : Prop :=
  match s with
  | EmptyString => True
  | String c r => Ecma.isWhiteSpace c = true /\ allWhite r
  end.

Definition startsWhite (s : string) : Prop :=
  match s with
  | EmptyString => False
  | String c _ => Ecma.isWhiteSpace c = true
  end.

Fixpoint endsWhite (s : string) : Prop :=
  match s with
  | EmptyString => False
  | String c EmptyString => Ecma.isWhiteSpace c = true
  | String _ r => endsWhite r
  end.

(** [r] is [s] without the white space around it. *)
Definition trimmed (s r : string) : Prop :=
  (exists l t, s = l +:+ r +:+ t /\ allWhite l /\ allWhite t) /\
  ~ startsWhite r /\ ~ endsWhite r.

(** ** Notions the statements are made of *)

(** Membership of the allow-list: of a string, never of [undefined]. *)
Definition allowListed (cfg : Config) (v : Ecma.value) : Prop :=
  match v with
  | Ecma.str s => s ∈ WHITELISTED_IPS cfg
  | Ecma.undefined => False
  end.

#[global] Instance value_eq_dec : EqDecision Ecma.value.
Proof. solve_decision. Defined.

(** A call that records all of an admission or nothing of it: a denial
    with the store as it was, or an admission with both counters one above
    what they were and every other document as it was. *)
Definition allOrNothing (ipRef globalRef : DocumentReference)
    (fs : Firestore) (out : Result bool * Firestore * list StoreOp) : Prop :=
  (out.1.1 = Ok false /\ out.1.2 = fs) \/
  (out.1.1 = Ok true /\
   out.1.2 !! ipRef = Some {| count := countOf (fs !! ipRef) + 1 |} /\
   out.1.2 !! globalRef = Some {| count := countOf (fs !! globalRef) + 1 |} /\
   (forall r, r <> ipRef -> r <> globalRef -> out.1.2 !! r = fs !! r)).

(** The quota check-and-increment for document id [id]: a struck
    transaction denies; otherwise both counters are read, and the call is
    admitted with both written one higher exactly when both are below their
    limits. *)
Definition metered (id : string) (w : World) (fs : Firestore)
    (out : Result bool * Firestore * list StoreOp) : Prop :=
  let ipRef := ipUsageRef id (todayOf w) in
  let globalRef := globalUsageRef (todayOf w) in
  let ipCount := ipCountIn fs id (todayOf w) in
  let globalCount := globalCountIn fs (todayOf w) in
  if struck (infra w) then out.1 = (Ok false, fs)
  else if bool_decide (ipCount < IP_LIMIT /\ globalCount < GLOBAL_LIMIT)
  then out = (Ok true,
              <[globalRef := {| count := globalCount + 1 |}]>
                (<[ipRef := {| count := ipCount + 1 |}]> fs),
              [OpGet ipRef; OpGet globalRef;
               OpSet ipRef {| count := ipCount + 1 |};
               OpSet globalRef {| count := globalCount + 1 |}])
  else out = (Ok false, fs, [OpGet ipRef; OpGet globalRef]).

(** The route of a request by its path: the first of ["/tts"],
    ["/openai"], ["/gemini"] that occurs in it decides which provider is
    called, once, with the prompt; a path with none of them is answered
    404 and no provider is called. *)
Definition routedInOrder (path : string) (userData : UserData)
    (res : Result Response) (calls : list ProviderCall) : Prop :=
  (contains path "/tts" -> calls = [CallTTS (prompt userData)]) /\
  (~ contains path "/tts" -> contains path "/openai" ->
   calls = [CallOpenAI (prompt userData)]) /\
  (~ contains path "/tts" -> ~ contains path "/openai" ->
   contains path "/gemini" -> calls = [CallGemini (prompt userData)]) /\
  (~ contains path "/tts" -> ~ contains path "/openai" ->
   ~ contains path "/gemini" -> res = Ok notFound404 /\ calls = []).

(** What the specification asks of the resolved identifier [id] of a
    request. *)
Definition resolvedAs (req : Request) (id : string) : Prop :=
  match xForwardedFor req with
  | Ecma.str (String _ _ as f) =>
      exists e, firstEntry ","%char f e /\ trimmed e id
  | _ =>
      match ip req with
      | Ecma.str a => id = a
      | Ecma.undefined => id = ""
      end
  end.

(** ** Sample data *)

Definition mayDay : string := "2024-05-01".

Definition morning : World :=
  {| isoNow := "2024-05-01T08:15:00.000Z"; infra := Healthy |}.

Definition noon : World :=
  {| isoNow := "2024-05-01T12:00:00.000Z"; infra := Healthy |}.

Definition outage : World :=
  {| isoNow := "2024-05-01T13:30:00.000Z"; infra := CommitFault |}.

Definition readTimeout : World :=
  {| isoNow := "2024-05-01T13:31:00.000Z"; infra := ReadFault 1 |}.

Definition office : Config :=
  {| WHITELISTED_IPS := ["203.0.113.7"; "203.0.113.8"];
     env_BYPASS_RATE_LIMITING := Ecma.undefined |}.

(** A configuration whose allow-list names the empty string. *)
Definition blankListed : Config :=
  {| WHITELISTED_IPS := [""]; env_BYPASS_RATE_LIMITING := Ecma.undefined |}.

Definition debugging : Config :=
  {| WHITELISTED_IPS := []; env_BYPASS_RATE_LIMITING := Ecma.str "true" |}.

Definition nobodyListed : Config :=
  {| WHITELISTED_IPS := []; env_BYPASS_RATE_LIMITING := Ecma.str "false" |}.

Definition alice : string := "198.51.100.4".
Definition bob : string := "198.51.100.9".

Definition storeOf (l : list (DocumentReference * Z)) : Firestore :=
  list_to_map (map (fun e => (e.1, {| count := e.2 |})) l).

(** Alice one call short of her limit, the day one call short of its. *)
Definition nearlyFull : Firestore :=
  storeOf [(ipUsageRef alice mayDay, 99); (globalUsageRef mayDay, 999)].

(** The day at its limit, Bob unseen. *)
Definition dayFull : Firestore :=
  storeOf [(ipUsageRef alice mayDay, 40); (globalUsageRef mayDay, 1000)].

(** The callers without an address at their limit. *)
Definition blankFull : Firestore :=
  storeOf [(ipUsageRef "" mayDay, 100); (globalUsageRef mayDay, 100)].

(** A request with neither a peer address nor a forwarded header. *)
Definition anonymous : Request :=
  {| ip := Ecma.undefined; xForwardedFor := Ecma.undefined; path := "/openai";
     body := {| prompt := "hello" |} |}.

Definition proxied : Request :=
  {| ip := Ecma.str "10.0.0.2";
     xForwardedFor := Ecma.str " 198.51.100.4 , 10.0.0.1";
     path := "/v1/openai/tts"; body := {| prompt := "read this" |} |}.

Definition echo : Providers :=
  {| synthesize := fun text => Ok text;
     chatCompletion := fun prompt => Ok prompt;
     generateContent := fun _ => Threw ProviderFailed |}.

(** ** Further notions: metered admissions, bursts, other days *)

Section Counting.

Context {Client : Type}.

(** Which callers the allow-list leaves to the quota. *)
Variable unlisted : Client -> bool.

(** How many calls of period [today] by such callers were admitted. *)
Fixpoint meteredIn (today : string) (calls : list (Client * World))
    (rs : list (Result bool)) : nat :=
  match calls, rs with
  | (c, w) :: calls', r :: rs' =>
      ((if unlisted c && String.eqb (todayOf w) today && isAdmitted r
        then 1 else 0)
       + meteredIn today calls' rs')%nat
  | _, _ => 0%nat
  end.

End Counting.

(** The callers of a configuration that are not on its allow-list. *)
Definition unlistedIn (cfg : Config) (v : Ecma.value) : bool :=
  negb (Ecma.arrayIncludes (WHITELISTED_IPS cfg) v).



Definition aprilEnd : string := "2024-04-30".


(** The day before at both limits, nothing recorded since. *)
Definition yesterdayFull : Firestore :=
  storeOf [(ipUsageRef alice aprilEnd, 100); (globalUsageRef aprilEnd, 1000)].


Definition unknownRoute : Request :=
  {| ip := Ecma.str bob; xForwardedFor := Ecma.undefined; path := "/health";
     body := {| prompt := "" |} |}.


(** ** The provider handlers, down to the request they send *)

(** The shapes the TypeScript file declares for what goes to the providers
    and what comes back; replies are taken to have the declared shape. *)
Module Wire.

(** A JSON number as it is written: [digits / 10 ^ scale]. *)
Record Decimal := { digits : Z; scale : nat }.

(** [interface TTSRequestBody]; the JavaScript file sends no
    [speakingRate]. *)
Record TTSRequestBody := {
  input_text : string;
  voice_languageCode : string;
  voice_name : string;
  audioConfig_audioEncoding : string;
  audioConfig_speakingRate : option Decimal
}.

(** [interface TTSResponse] *)
Record TTSResponse := { audioContent : string }.

Record ChatMessage := { role : string; content : string }.

(** [interface OpenAIRequestBody] *)
Record OpenAIRequestBody := { model : string; messages : list ChatMessage }.

Record ChoiceMessage := { replyContent : string }.
Record Choice := { message : ChoiceMessage }.

(** [interface OpenAIResponse] *)
Record OpenAIResponse := { choices : list Choice }.

(** The argument of [googleGenAI.models.generateContent]. *)
Record GenerateContentParameters := { gcModel : string; contents : string }.

End Wire.

(** [process.env.GOOGLE_TTS_API_KEY] and [process.env.OPENAI_API_KEY]. *)
Record Secrets := {
  GOOGLE_TTS_API_KEY : Ecma.value;
  OPENAI_API_KEY : Ecma.value
}.

(** What is beyond the process: [axios.post] to the two HTTP providers,
    with the URL, the body and the headers it is given, and the two
    Gemini client libraries; each gives back the reply's data or throws. *)
Record Network := {
  postTTS : string -> Wire.TTSRequestBody -> Result Wire.TTSResponse;
  postOpenAI :
    string -> Wire.OpenAIRequestBody -> list (string * string) ->
    Result Wire.OpenAIResponse;
  modelsGenerateContent :
    Wire.GenerateContentParameters -> Result Ecma.value;
  modelGenerateContentText : string -> string -> Result string
}.

(** src/src/index.ts, lines 213-249. *)
Module TSHandlers.

Definition handleTTS (env : Secrets) (net : Network) (text : string)
    : Result string :=
  let apiKey := GOOGLE_TTS_API_KEY env in
  let url :=
    "https://texttospeech.googleapis.com/v1/text:synthesize?key="
    +:+ Ecma.toString apiKey in
  let body :=
    {| Wire.input_text := text;
       Wire.voice_languageCode := "en-GB";
       Wire.voice_name := "en-GB-Chirp3-HD-Algenib";
       Wire.audioConfig_audioEncoding := "MP3";
       Wire.audioConfig_speakingRate :=
         Some {| Wire.digits := 9; Wire.scale := 1 |} |} in
  match postTTS net url body with
  | Ok response => Ok (Wire.audioContent response)
  | Threw e => Threw e
  end.

(** [response.data.choices[0].message.content]: with no choice,
    [choices[0]] is [undefined] and reading [message] of it throws. *)
Definition handleOpenAI (env : Secrets) (net : Network) (prompt : string)
    : Result string :=
  let apiKey := OPENAI_API_KEY env in
  let url := "https://api.openai.com/v1/chat/completions" in
  let body :=
    {| Wire.model := "gpt-4o";
       Wire.messages := [{| Wire.role := "user"; Wire.content := prompt |}] |}
  in
  let headers := [("Authorization", "Bearer " +:+ Ecma.toString apiKey)] in
  match postOpenAI net url body headers with
  | Ok response =>
      match Wire.choices response with
      | choice :: _ => Ok (Wire.replyContent (Wire.message choice))
      | [] => Threw ProviderFailed
      end
  | Threw e => Threw e
  end.

(** [return response.text || ""] *)
Definition handleGemini (net : Network) (prompt : string) : Result string :=
  match modelsGenerateContent net
          {| Wire.gcModel := "gemini-2.5-flash-lite";
             Wire.contents := prompt |} with
  | Ok text => Ok (Ecma.orEmpty text)
  | Threw e => Threw e
  end.

(** The handlers as [apiProxy] calls them. *)
Definition providers (env : Secrets) (net : Network) : Providers :=
  {| synthesize := handleTTS env net;
     chatCompletion := handleOpenAI env net;
     generateContent := handleGemini net |}.

End TSHandlers.

(** src/index.js, lines 179-214. *)
Module JSHandlers.

Definition handleTTS (env : Secrets) (net : Network) (text : string)
    : Result string :=
  let apiKey := GOOGLE_TTS_API_KEY env in
  let url :=
    "https://texttospeech.googleapis.com/v1/text:synthesize?key="
    +:+ Ecma.toString apiKey in
  let body :=
    {| Wire.input_text := text;
       Wire.voice_languageCode := "en-GB";
       Wire.voice_name := "en-GB-Chirp3-HD-Algenib";
       Wire.audioConfig_audioEncoding := "MP3";
       Wire.audioConfig_speakingRate := None |} in
  match postTTS net url body with
  | Ok response => Ok (Wire.audioContent response)
  | Threw e => Threw e
  end.

Definition handleOpenAI (env : Secrets) (net : Network) (prompt : string)
    : Result string :=
  let apiKey := OPENAI_API_KEY env in
  let url := "https://api.openai.com/v1/chat/completions" in
  let body :=
    {| Wire.model := "gpt-4o";
       Wire.messages := [{| Wire.role := "user"; Wire.content := prompt |}] |}
  in
  let headers := [("Authorization", "Bearer " +:+ Ecma.toString apiKey)] in
  match postOpenAI net url body headers with
  | Ok response =>
      match Wire.choices response with
      | choice :: _ => Ok (Wire.replyContent (Wire.message choice))
      | [] => Threw ProviderFailed
      end
  | Threw e => Threw e
  end.

(** [getGenerativeModel], [generateContent], [result.response] and
    [response.text()], taken together. *)
Definition handleGemini (net : Network) (prompt : string) : Result string :=
  match modelGenerateContentText net "gemini-2.5-flash-lite" prompt with
  | Ok text => Ok text
  | Threw e => Threw e
  end.

Definition providers (env : Secrets) (net : Network) : Providers :=
  {| synthesize := handleTTS env net;
     chatCompletion := handleOpenAI env net;
     generateContent := handleGemini net |}.

End JSHandlers.

(** A network whose chat provider answers with two choices, whose speech
    provider is down and whose Gemini reply has no text. *)
Definition twoChoices : Network :=
  {| postTTS := fun _ _ => Threw ProviderFailed;
     postOpenAI := fun _ _ _ =>
       Ok {| Wire.choices :=
               [{| Wire.message := {| Wire.replyContent := "first" |} |};
                {| Wire.message := {| Wire.replyContent := "second" |} |}] |};
     modelsGenerateContent := fun _ => Ok Ecma.undefined;
     modelGenerateContentText := fun _ _ => Ok "" |}.

(** A network whose chat provider answers with no choice at all. *)
Definition noChoice : Network :=
  {| postTTS := fun _ _ => Threw ProviderFailed;
     postOpenAI := fun _ _ _ => Ok {| Wire.choices := [] |};
     modelsGenerateContent := fun _ => Ok (Ecma.str "");
     modelGenerateContentText := fun _ _ => Threw ProviderFailed |}.

Definition noKeys : Secrets :=
  {| GOOGLE_TTS_API_KEY := Ecma.undefined; OPENAI_API_KEY := Ecma.undefined |}.

(** The requests of a prompt as the handlers write them: the chat request
    of both files, the speech request with the speaking rate of the
    TypeScript file or without one as in the JavaScript file, and the
    Gemini request of the TypeScript file. *)
Definition chatRequest (env : Secrets) (net : Network) (prompt : string)
    : Result Wire.OpenAIResponse :=
  postOpenAI net "https://api.openai.com/v1/chat/completions"
    {| Wire.model := "gpt-4o";
       Wire.messages := [{| Wire.role := "user"; Wire.content := prompt |}] |}
    [("Authorization", "Bearer " +:+ Ecma.toString (OPENAI_API_KEY env))].

Definition speechRequest (env : Secrets) (net : Network)
    (rate : option Wire.Decimal) (text : string) : Result Wire.TTSResponse :=
  postTTS net
    ("https://texttospeech.googleapis.com/v1/text:synthesize?key="
     +:+ Ecma.toString (GOOGLE_TTS_API_KEY env))
    {| Wire.input_text := text;
       Wire.voice_languageCode := "en-GB";
       Wire.voice_name := "en-GB-Chirp3-HD-Algenib";
       Wire.audioConfig_audioEncoding := "MP3";
       Wire.audioConfig_speakingRate := rate |}.

Definition geminiRequest (net : Network) (prompt : string)
    : Result Ecma.value :=
  modelsGenerateContent net
    {| Wire.gcModel := "gemini-2.5-flash-lite"; Wire.contents := prompt |}.

Definition replied (text : string) : Response :=
  {| status := 200; contentType := None; sent := SendJson "reply" text |}.

Definition spoken (audio : string) : Response :=
  {| status := 200; contentType := Some "text/plain";
     sent := SendText audio |}.

(** ** The program on sample requests *)

(** Both sides of an equation between closed terms are evaluated and
    compared by the virtual machine, without the normal form of a store
    ever being printed into the goal. *)
Ltac by_evaluation :=
  lazymatch goal with
  | |- @eq ?T _ ?r => vm_cast_no_check (@eq_refl T r)
  end.

Example proxied_address :
  TS.ipAddressOf proxied = Ecma.str "198.51.100.4" /\
  JS.ipAddressOf proxied = Ecma.str "198.51.100.4".
Proof. split; reflexivity. Qed.

Example blank_first_entry :
  TS.ipAddressOf
    {| ip := Ecma.str "10.0.0.2"; xForwardedFor := Ecma.str " , 198.51.100.4";
       path := "/tts"; body := {| prompt := "" |} |}
  = Ecma.str "".
Proof. reflexivity. Qed.

Example empty_header_falls_back :
  TS.ipAddressOf
    {| ip := Ecma.str "10.0.0.2"; xForwardedFor := Ecma.str "";
       path := "/tts"; body := {| prompt := "" |} |}
  = Ecma.str "10.0.0.2".
Proof. reflexivity. Qed.

Example today_of_noon : todayOf noon = mayDay.
Proof. reflexivity. Qed.

Example first_call_creates_both :
  TS.checkAndRecordUsage office noon ∅ alice
  = (Ok true,
     storeOf [(ipUsageRef alice mayDay, 1); (globalUsageRef mayDay, 1)],
     [OpGet (ipUsageRef alice mayDay); OpGet (globalUsageRef mayDay);
      OpSet (ipUsageRef alice mayDay) {| count := 1 |};
      OpSet (globalUsageRef mayDay) {| count := 1 |}]).
Proof. by_evaluation. Qed.

Example last_call_before_both_limits :
  (TS.checkAndRecordUsage office noon nearlyFull alice).1
  = (Ok true,
     storeOf [(ipUsageRef alice mayDay, 100); (globalUsageRef mayDay, 1000)]).
Proof. by_evaluation. Qed.

Example run_of_four :
  serve (TS.checkAndRecordUsage office)
    [(alice, morning); (bob, noon); (alice, outage); (alice, noon)] ∅
  = ([Ok true; Ok true; Ok false; Ok true],
     storeOf [(ipUsageRef alice mayDay, 2); (ipUsageRef bob mayDay, 1);
              (globalUsageRef mayDay, 3)]).
Proof. by_evaluation. Qed.

Example hundred_and_first_denied :
  let run := serve (TS.checkAndRecordUsage office)
               (replicate 101 (alice, noon)) ∅ in
  run.1 = replicate 100 (Ok true) ++ [Ok false] /\
  ipCountIn run.2 alice mayDay = 100 /\
  globalCountIn run.2 mayDay = 100.
Proof. vm_compute. repeat split; reflexivity. Qed.

Example failed_commit_writes_nothing :
  TS.checkAndRecordUsage office outage ∅ alice
  = (Ok false, ∅,
     [OpGet (ipUsageRef alice mayDay); OpGet (globalUsageRef mayDay);
      OpSet (ipUsageRef alice mayDay) {| count := 1 |};
      OpSet (globalUsageRef mayDay) {| count := 1 |}]).
Proof. by_evaluation. Qed.

Example failed_read_stops_there :
  JS.checkAndRecordUsage office readTimeout ∅ (Ecma.str alice)
  = (Ok false, ∅,
     [OpGet (ipUsageRef alice mayDay); OpGet (globalUsageRef mayDay)]).
Proof. by_evaluation. Qed.

Example tts_wins_over_openai :
  TS.apiProxy office noon echo ∅ proxied
  = (Ok {| status := 200; contentType := Some "text/plain";
           sent := SendText "read this" |},
     storeOf [(ipUsageRef alice mayDay, 1); (globalUsageRef mayDay, 1)],
     [OpGet (ipUsageRef alice mayDay); OpGet (globalUsageRef mayDay);
      OpSet (ipUsageRef alice mayDay) {| count := 1 |};
      OpSet (globalUsageRef mayDay) {| count := 1 |}],
     [CallTTS "read this"]).
Proof. by_evaluation. Qed.

Example bypass_admits_at_the_limit :
  TS.apiProxy debugging noon echo blankFull anonymous
  = (Ok {| status := 200; contentType := None;
           sent := SendJson "reply" "hello" |}, blankFull, [],
     [CallOpenAI "hello"]).
Proof. by_evaluation. Qed.

(** ** The transaction, case by case *)

Lemma updateFunction_same : JS.updateFunction = TS.updateFunction.
Proof. reflexivity. Qed.

Lemma TS_checkAndRecordUsage_eq cfg w fs ipAddress :
  TS.checkAndRecordUsage cfg w fs ipAddress =
  if BYPASS_RATE_LIMITING cfg then (Ok true, fs, [])
  else if Ecma.arrayIncludes (WHITELISTED_IPS cfg) (Ecma.str ipAddress)
       then (Ok true, fs, [])
       else quota ipAddress w fs.
Proof. reflexivity. Qed.

Lemma JS_checkAndRecordUsage_eq cfg w fs ipAddress :
  JS.checkAndRecordUsage cfg w fs ipAddress =
  if BYPASS_RATE_LIMITING cfg then (Ok true, fs, [])
  else if Ecma.arrayIncludes (WHITELISTED_IPS cfg) ipAddress
       then (Ok true, fs, [])
       else quota (Ecma.toString ipAddress) w fs.
Proof. reflexivity. Qed.

Lemma JS_checkAndRecordUsage_str cfg w fs s :
  JS.checkAndRecordUsage cfg w fs (Ecma.str s) =
  TS.checkAndRecordUsage cfg w fs s.
Proof. reflexivity. Qed.

Lemma geb_false_iff (a b : Z) : (a >=? b) = false <-> a < b.
Proof. rewrite Z.geb_leb. apply Z.leb_gt. Qed.

(** When the infrastructure strikes, the call is a denial that leaves the
    store as it was. *)
Lemma quota_struck id w fs :
  struck (infra w) = true ->
  exists ops, quota id w fs = (Ok false, fs, ops).
Proof.
  unfold quota, transactionOf, runTransaction, TS.updateFunction, tx_bind,
    tx_get, tx_set, tx_ret, beginTransaction.
  destruct (infra w) as [|k|]; simpl; [discriminate| |].
  - destruct k as [|[|k]]; simpl; intros H; try discriminate; eauto.
  - intros _.
    destruct (countOf (fs !! ipUsageRef id (todayOf w)) >=? IP_LIMIT); simpl;
      [eauto|].
    destruct (countOf (fs !! globalUsageRef (todayOf w)) >=? GLOBAL_LIMIT);
      simpl; eauto.
Qed.

(** When it does not, a counter at its limit denies the call, with the two
    reads and no write. *)
Lemma quota_denied id w fs :
  struck (infra w) = false ->
  IP_LIMIT <= ipCountIn fs id (todayOf w) \/
  GLOBAL_LIMIT <= globalCountIn fs (todayOf w) ->
  quota id w fs =
  (Ok false, fs,
   [OpGet (ipUsageRef id (todayOf w)); OpGet (globalUsageRef (todayOf w))]).
Proof.
  unfold ipCountIn, globalCountIn, quota, transactionOf, runTransaction,
    TS.updateFunction, tx_bind, tx_get, tx_set, tx_ret, beginTransaction.
  intros Hs Hlim.
  destruct (infra w) as [|k|]; simpl in *; try discriminate.
  - destruct (_ >=? IP_LIMIT) eqn:Ei; simpl; [reflexivity|].
    destruct (_ >=? GLOBAL_LIMIT) eqn:Eg; simpl; [reflexivity|].
    apply geb_false_iff in Ei, Eg. lia.
  - destruct k as [|[|k]]; simpl in *; try discriminate.
    destruct (_ >=? IP_LIMIT) eqn:Ei; simpl; [reflexivity|].
    destruct (_ >=? GLOBAL_LIMIT) eqn:Eg; simpl; [reflexivity|].
    apply geb_false_iff in Ei, Eg. lia.
Qed.

(** Otherwise both counters are written, one above what was read. *)
Lemma quota_admitted id w fs :
  struck (infra w) = false ->
  ipCountIn fs id (todayOf w) < IP_LIMIT ->
  globalCountIn fs (todayOf w) < GLOBAL_LIMIT ->
  quota id w fs =
  (Ok true,
   <[globalUsageRef (todayOf w) :=
       {| count := globalCountIn fs (todayOf w) + 1 |}]>
     (<[ipUsageRef id (todayOf w) :=
          {| count := ipCountIn fs id (todayOf w) + 1 |}]> fs),
   [OpGet (ipUsageRef id (todayOf w)); OpGet (globalUsageRef (todayOf w));
    OpSet (ipUsageRef id (todayOf w))
      {| count := ipCountIn fs id (todayOf w) + 1 |};
    OpSet (globalUsageRef (todayOf w))
      {| count := globalCountIn fs (todayOf w) + 1 |}]).
Proof.
  unfold ipCountIn, globalCountIn, quota, transactionOf, runTransaction,
    TS.updateFunction, tx_bind, tx_get, tx_set, tx_ret, beginTransaction.
  intros Hs Hi Hg.
  apply geb_false_iff in Hi, Hg.
  destruct (infra w) as [|k|]; simpl in *; try discriminate.
  - rewrite Hi, Hg. reflexivity.
  - destruct k as [|[|k]]; simpl in *; try discriminate.
    rewrite Hi, Hg. reflexivity.
Qed.

(** The three cases cover every call. *)
Lemma quota_cases id w fs :
  (exists ops, quota id w fs = (Ok false, fs, ops)) \/
  (ipCountIn fs id (todayOf w) < IP_LIMIT /\
   globalCountIn fs (todayOf w) < GLOBAL_LIMIT /\
   struck (infra w) = false /\
   exists ops,
     quota id w fs =
     (Ok true,
      <[globalUsageRef (todayOf w) :=
          {| count := globalCountIn fs (todayOf w) + 1 |}]>
        (<[ipUsageRef id (todayOf w) :=
             {| count := ipCountIn fs id (todayOf w) + 1 |}]> fs), ops)).
Proof.
  destruct (struck (infra w)) eqn:Hs.
  - left. by apply quota_struck.
  - destruct (Z_lt_le_dec (ipCountIn fs id (todayOf w)) IP_LIMIT) as [Hi|Hi].
    + destruct (Z_lt_le_dec (globalCountIn fs (todayOf w)) GLOBAL_LIMIT)
        as [Hg|Hg].
      * right. repeat split; try assumption.
        eexists. by apply quota_admitted.
      * left. eexists. apply quota_denied; auto.
    + left. eexists. apply quota_denied; auto.
Qed.

(** ** Strings: what the document ids rely on *)

Lemma append_length (a b : string) :
  String.length (a +:+ b) = (String.length a + String.length b)%nat.
Proof. induction a as [|c a IH]; simpl; [reflexivity|]. by rewrite IH. Qed.

(** Two document ids of the same period are equal only for the same
    caller. *)
Lemma append_cancel_r (a b t : string) : a +:+ t = b +:+ t -> a = b.
Proof.
  revert b. induction a as [|c a IH]; intros [|d b] H; simpl in H.
  - reflexivity.
  - apply (f_equal String.length) in H.
    rewrite !append_length in H. simpl in H. lia.
  - apply (f_equal String.length) in H.
    rewrite !append_length in H. simpl in H. lia.
  - injection H as -> H. f_equal. by apply IH.
Qed.

Lemma ipUsageRef_inj (a b today : string) :
  ipUsageRef a today = ipUsageRef b today -> a = b.
Proof.
  unfold ipUsageRef, doc. intros H. injection H as H.
  by apply append_cancel_r in H.
Qed.

Lemma ip_global_apart (id today docId : string) :
  ipUsageRef id today <> doc "global-usage" docId.
Proof. unfold ipUsageRef, doc. intros H. discriminate H. Qed.

Lemma global_ip_apart (today docId : string) :
  globalUsageRef today <> doc "ip-usage" docId.
Proof. unfold globalUsageRef, doc. intros H. discriminate H. Qed.

Section Controller.

Context {Client : Type} `{EqDecision Client}.

(** The admission function of one of the two files, its configuration
    fixed, with what its definition unfolds to. *)
Variable admission :
  World -> Firestore -> Client -> Result bool * Firestore * list StoreOp.
Variable cfg : Config.
Variable idOf : Client -> string.
Variable listed : Client -> bool.

Hypothesis admission_eq : forall w fs c,
  admission w fs c =
  if BYPASS_RATE_LIMITING cfg then (Ok true, fs, [])
  else if listed c then (Ok true, fs, [])
  else quota (idOf c) w fs.

Lemma admission_total w fs c :
  exists b fs' ops, admission w fs c = (Ok b, fs', ops).
Proof.
  rewrite admission_eq.
  destruct (BYPASS_RATE_LIMITING cfg); [eauto|].
  destruct (listed c); [eauto|].
  destruct (quota_cases (idOf c) w fs) as [[ops ->]|(_ & _ & _ & ops & ->)];
    eauto.
Qed.

(** One call: nothing changes, or both counters of the caller's period
    were below their limits and both go up by one. *)
Lemma admission_step w fs c :
  (exists b ops, admission w fs c = (Ok b, fs, ops) /\
     (b = true -> BYPASS_RATE_LIMITING cfg = true \/ listed c = true)) \/
  (BYPASS_RATE_LIMITING cfg = false /\ listed c = false /\
   ipCountIn fs (idOf c) (todayOf w) < IP_LIMIT /\
   globalCountIn fs (todayOf w) < GLOBAL_LIMIT /\
   exists ops,
     admission w fs c =
     (Ok true,
      <[globalUsageRef (todayOf w) :=
          {| count := globalCountIn fs (todayOf w) + 1 |}]>
        (<[ipUsageRef (idOf c) (todayOf w) :=
             {| count := ipCountIn fs (idOf c) (todayOf w) + 1 |}]> fs),
      ops)).
Proof.
  rewrite admission_eq.
  destruct (BYPASS_RATE_LIMITING cfg) eqn:Hb; [left; eauto 6|].
  destruct (listed c) eqn:Hl; [left; eauto 6|].
  destruct (quota_cases (idOf c) w fs)
    as [[ops ->]|(Hi & Hg & _ & ops & ->)].
  - left. exists false, ops. split; [reflexivity|discriminate].
  - right. eauto 8.
Qed.

Lemma admission_withinLimits w fs c :
  withinLimits fs -> withinLimits (admission w fs c).1.2.
Proof.
  intros Hfs.
  destruct (admission_step w fs c)
    as [(b & ops & -> & _)|(_ & _ & Hi & Hg & ops & ->)]; [exact Hfs|].
  simpl. intros docId. split.
  - rewrite lookup_insert_ne by apply global_ip_apart.
    destruct (decide (ipUsageRef (idOf c) (todayOf w) = doc "ip-usage" docId))
      as [<-|Hne].
    + rewrite lookup_insert_eq. simpl. lia.
    + rewrite lookup_insert_ne by exact Hne. apply Hfs.
  - destruct (decide (globalUsageRef (todayOf w) = doc "global-usage" docId))
      as [<-|Hne].
    + rewrite lookup_insert_eq. simpl. lia.
    + rewrite lookup_insert_ne by exact Hne.
      rewrite lookup_insert_ne by apply ip_global_apart. apply Hfs.
Qed.

Lemma serve_withinLimits calls fs :
  withinLimits fs -> withinLimits (serve admission calls fs).2.
Proof.
  revert fs. induction calls as [|[c w] calls IH]; intros fs Hfs; [exact Hfs|].
  simpl. pose proof (admission_withinLimits w fs c Hfs) as Hstep.
  destruct (admission w fs c) as [[r fs'] ops]. simpl in Hstep.
  specialize (IH fs' Hstep).
  destruct (serve admission calls fs') as [rs fs'']. exact IH.
Qed.




(** The counter of a caller moves with the admitted calls of that caller
    and with nothing else, in a run of calls of one period in which no
    other caller shares the caller's document id. *)
Lemma serve_counts c today calls fs :
  BYPASS_RATE_LIMITING cfg = false -> listed c = false ->
  (forall c' w, (c', w) ∈ calls -> todayOf w = today) ->
  (forall c' w, (c', w) ∈ calls -> idOf c' = idOf c -> c' = c) ->
  ipCountIn (serve admission calls fs).2 (idOf c) today =
  ipCountIn fs (idOf c) today
  + Z.of_nat (admittedCalls c calls (serve admission calls fs).1).
Proof.
  intros Hb Hl. revert fs.
  induction calls as [|[c0 w0] calls IH]; intros fs Hday Hown.
  - simpl. lia.
  - assert (Hw0 : todayOf w0 = today) by (apply (Hday c0); left).
    assert (IH' : forall fs',
      ipCountIn (serve admission calls fs').2 (idOf c) today =
      ipCountIn fs' (idOf c) today
      + Z.of_nat (admittedCalls c calls (serve admission calls fs').1)).
    { intros fs'. apply IH.
      - intros c' w Hin. apply (Hday c'). by right.
      - intros c' w Hin. apply (Hown c' w). by right. }
    simpl.
    destruct (admission_step w0 fs c0)
      as [(b & ops & Heq & Hb')|(_ & Hl0 & Hi & Hg & ops & Heq)];
      rewrite Heq;
      match goal with
      | |- context [serve admission calls ?f] =>
          specialize (IH' f); destruct (serve admission calls f) as [rs fs'']
      end;
      simpl in *; rewrite IH'.
    + destruct b; [|rewrite andb_false_r; lia].
      rewrite andb_true_r, bool_decide_eq_false_2; [lia|].
      intros ->. destruct (Hb' eq_refl); congruence.
    + rewrite andb_true_r, Hw0. unfold ipCountIn at 1.
      rewrite lookup_insert_ne
        by (intros H; symmetry in H; exact (ip_global_apart _ _ _ H)).
      destruct (decide (c0 = c)) as [->|Hne].
      * rewrite lookup_insert_eq, bool_decide_eq_true_2 by reflexivity.
        simpl. lia.
      * rewrite bool_decide_eq_false_2 by exact Hne.
        rewrite lookup_insert_ne; [unfold ipCountIn; lia|].
        intros H. apply ipUsageRef_inj in H.
        apply Hne, (Hown c0 w0); [left|exact H].
Qed.

End Controller.

(** ** The string primitives meet their meaning *)

Lemma append_nil_l (s : string) : "" +:+ s = s.
Proof. reflexivity. Qed.

Lemma append_cons (c : ascii) (s t : string) :
  String c s +:+ t = String c (s +:+ t).
Proof. reflexivity. Qed.

Ltac unfold_append := rewrite ?append_nil_l, ?append_cons in *.

Lemma startsWith_spec (s p : string) :
  Ecma.startsWith s p = true <-> exists post, s = p +:+ post.
Proof.
  revert s. induction p as [|a p IH]; intros s; simpl.
  - split; [intros _; by exists s|]. by destruct s.
  - destruct s as [|b s].
    + split; [discriminate|]. intros [post H]. discriminate H.
    + simpl.
      destruct (Ascii.eqb_spec a b) as [->|Hne];
        rewrite ?andb_true_l, ?andb_false_l; unfold_append.
      * rewrite IH. split.
        -- intros [post ->]. by exists post.
        -- intros [post H]. injection H as ->. eauto.
      * split; [discriminate|]. intros [post H]. injection H as -> _.
        by destruct Hne.
Qed.

Lemma includes_contains (s sub : string) :
  Ecma.includes s sub = true <-> contains s sub.
Proof.
  unfold contains. induction s as [|c s IH].
  - change (Ecma.includes "" sub) with (Ecma.startsWith "" sub || false).
    rewrite orb_false_r, startsWith_spec. split.
    + intros [post H]. by exists "", post.
    + intros ([|d pre] & post & H); unfold_append; [eauto|discriminate H].
  - change (Ecma.includes (String c s) sub)
      with (Ecma.startsWith (String c s) sub || Ecma.includes s sub).
    rewrite orb_true_iff, startsWith_spec, IH. split.
    + intros [[post H]|(pre & post & H)].
      * by exists "", post.
      * exists (String c pre), post. unfold_append. by rewrite H.
    + intros ([|d pre] & post & H); unfold_append.
      * left. eauto.
      * right. injection H as _ H. eauto.
Qed.

Lemma includes_not_contains (s sub : string) :
  Ecma.includes s sub = false <-> ~ contains s sub.
Proof.
  rewrite <- includes_contains. destruct (Ecma.includes s sub).
  - split; [discriminate|]. intros H. by destruct H.
  - split; [discriminate|reflexivity].
Qed.

Lemma splitHead_firstEntry (sep : ascii) (s : string) :
  firstEntry sep s (Ecma.splitHead sep s).
Proof.
  unfold firstEntry. induction s as [|c s [IHn IHs]]; simpl.
  - split; [tauto|by left].
  - destruct (Ascii.eqb_spec c sep) as [->|Hne]; simpl.
    + split; [tauto|]. right. by exists s.
    + split; [intros [H|H]; tauto|].
      destruct IHs as [IHs|[rest IHs]].
      * left. by rewrite <- IHs.
      * right. exists rest. unfold_append. by rewrite <- IHs.
Qed.

Lemma trimStart_spec (s : string) :
  (exists l, s = l +:+ Ecma.trimStart s /\ allWhite l) /\
  ~ startsWhite (Ecma.trimStart s).
Proof.
  induction s as [|c s [(l & Hl & Hw) Hs]]; simpl.
  - split; [by exists ""|tauto].
  - destruct (Ecma.isWhiteSpace c) eqn:Hc.
    + split; [|exact Hs]. exists (String c l). unfold_append.
      split; [by rewrite <- Hl|by split].
    + split; [by exists ""|]. simpl. congruence.
Qed.

Lemma trimEnd_spec (s : string) :
  (exists t, s = Ecma.trimEnd s +:+ t /\ allWhite t) /\
  ~ endsWhite (Ecma.trimEnd s) /\
  (~ startsWhite s -> ~ startsWhite (Ecma.trimEnd s)).
Proof.
  induction s as [|c s ((t & Ht & Hw) & He & _)]; simpl.
  - repeat split; [by exists ""|tauto|tauto].
  - destruct (Ecma.trimEnd s) as [|d r] eqn:Hr.
    + destruct (Ecma.isWhiteSpace c) eqn:Hc; simpl.
      * split; [|tauto]. exists (String c t). unfold_append.
        split; [by rewrite <- Ht|by split].
      * split; [|split; congruence]. exists t. unfold_append.
        split; [by rewrite <- Ht|exact Hw].
    + split; [|split; [exact He|simpl; tauto]].
      exists t. unfold_append. split; [by rewrite <- Ht|exact Hw].
Qed.

Lemma trim_trimmed (s : string) : trimmed s (Ecma.trim s).
Proof.
  unfold trimmed, Ecma.trim.
  destruct (trimStart_spec s) as [(l & Hl & Hlw) Hs].
  destruct (trimEnd_spec (Ecma.trimStart s)) as ((t & Ht & Htw) & He & Hk).
  split; [|split; [by apply Hk|exact He]].
  exists l, t. split; [|by split]. by rewrite <- Ht.
Qed.

(** ** The allow-list and the quota path *)

Lemma arrayIncludes_allowListed cfg (v : Ecma.value) :
  Ecma.arrayIncludes (WHITELISTED_IPS cfg) v = true <-> allowListed cfg v.
Proof.
  destruct v as [|s]; simpl; [split; [discriminate|tauto]|].
  rewrite existsb_exists, list_elem_of_In. split.
  - intros (x & Hin & Heq). apply String.eqb_eq in Heq. by subst.
  - intros Hin. exists s. split; [exact Hin|apply String.eqb_refl].
Qed.

Lemma arrayIncludes_not_allowListed cfg (v : Ecma.value) :
  Ecma.arrayIncludes (WHITELISTED_IPS cfg) v = false <-> ~ allowListed cfg v.
Proof.
  rewrite <- arrayIncludes_allowListed.
  destruct (Ecma.arrayIncludes _ v).
  - split; [discriminate|]. intros H. by destruct H.
  - split; [discriminate|reflexivity].
Qed.

Lemma TS_quota_path cfg w fs (c : string) :
  BYPASS_RATE_LIMITING cfg = false -> ~ allowListed cfg (Ecma.str c) ->
  TS.checkAndRecordUsage cfg w fs c = quota c w fs.
Proof.
  intros Hb Hl. apply arrayIncludes_not_allowListed in Hl.
  by rewrite TS_checkAndRecordUsage_eq, Hb, Hl.
Qed.



Lemma quota_metered id w fs : metered id w fs (quota id w fs).
Proof.
  unfold metered. destruct (struck (infra w)) eqn:Hs.
  - destruct (quota_struck id w fs Hs) as [ops ->]. reflexivity.
  - case_bool_decide as Hlim.
    + destruct Hlim as [Hi Hg]. by apply quota_admitted.
    + apply quota_denied; [exact Hs|]. lia.
Qed.

Lemma quota_allOrNothing id w fs :
  allOrNothing (ipUsageRef id (todayOf w)) (globalUsageRef (todayOf w)) fs
    (quota id w fs).
Proof.
  unfold allOrNothing.
  destruct (quota_cases id w fs) as [[ops ->]|(Hi & Hg & _ & ops & ->)].
  - left. by simpl.
  - right. simpl. split; [reflexivity|]. split; [|split].
    + rewrite lookup_insert_ne
        by (intros H; symmetry in H; exact (ip_global_apart _ _ _ H)).
      by rewrite lookup_insert_eq.
    + by rewrite lookup_insert_eq.
    + intros r Hri Hrg. by rewrite !lookup_insert_ne.
Qed.

(** ** Properties of a single call *)

Ltac not_listed :=
  let H := fresh in
  simpl; intros H;
  repeat (apply elem_of_cons in H as [H|H]; [discriminate H|]);
  by apply elem_of_nil in H.

(** C4: a caller on the allow-list is admitted whatever the counters, the
    clock, the infrastructure and the bypass flag are, and the call issues
    no store operation and leaves the store as it was; in both files. *)
Theorem allow_listed_always_admitted cfg w fs (c : string) (v : Ecma.value) :
  (allowListed cfg (Ecma.str c) ->
   TS.checkAndRecordUsage cfg w fs c = (Ok true, fs, [])) /\
  (allowListed cfg v ->
   JS.checkAndRecordUsage cfg w fs v = (Ok true, fs, [])).
Proof.
  split; intros Hl; apply arrayIncludes_allowListed in Hl.
  - rewrite TS_checkAndRecordUsage_eq, Hl.
    by destruct (BYPASS_RATE_LIMITING cfg).
  - rewrite JS_checkAndRecordUsage_eq, Hl.
    by destruct (BYPASS_RATE_LIMITING cfg).
Qed.

Lemma allow_listed_always_admitted_witness :
  TS.checkAndRecordUsage office outage dayFull "203.0.113.8"
  = (Ok true, dayFull, []) /\
  JS.checkAndRecordUsage office outage dayFull (Ecma.str "203.0.113.7")
  = (Ok true, dayFull, []).
Proof.
  destruct (allow_listed_always_admitted office outage dayFull
              "203.0.113.8" (Ecma.str "203.0.113.7")) as [HT HJ].
  split.
  - apply HT. simpl. right. left.
  - apply HJ. simpl. left.
Defined.



Lemma TS_checkAndRecordUsage_returns cfg w fs c :
  exists b, (TS.checkAndRecordUsage cfg w fs c).1.1 = Ok b.
Proof.
  destruct (admission_total (TS.checkAndRecordUsage cfg) cfg (fun c => c)
              (fun c => Ecma.arrayIncludes (WHITELISTED_IPS cfg) (Ecma.str c))
              (TS_checkAndRecordUsage_eq cfg) w fs c) as (b & fs' & ops & ->).
  by exists b.
Qed.

Lemma JS_checkAndRecordUsage_returns cfg w fs v :
  exists b, (JS.checkAndRecordUsage cfg w fs v).1.1 = Ok b.
Proof.
  destruct (admission_total (JS.checkAndRecordUsage cfg) cfg Ecma.toString
              (Ecma.arrayIncludes (WHITELISTED_IPS cfg))
              (JS_checkAndRecordUsage_eq cfg) w fs v) as (b & fs' & ops & ->).
  by exists b.
Qed.

Lemma TS_apiProxy_answers cfg w p fs req :
  exists res, (TS.apiProxy cfg w p fs req).1.1.1 = Ok res.
Proof.
  unfold TS.apiProxy.
  destruct (TS_checkAndRecordUsage_returns cfg w fs
              (Ecma.orEmpty (TS.ipAddressOf req))) as [b Hb].
  destruct (TS.checkAndRecordUsage _ _ _ _) as [[r fs'] ops].
  simpl in Hb. subst r.
  destruct b; simpl; [|eauto]. destruct (TS.dispatch _ _ _); simpl; eauto.
Qed.

Lemma JS_apiProxy_answers cfg w p fs req :
  exists res, (JS.apiProxy cfg w p fs req).1.1.1 = Ok res.
Proof.
  unfold JS.apiProxy.
  destruct (JS_checkAndRecordUsage_returns cfg w fs (JS.ipAddressOf req))
    as [b Hb].
  destruct (JS.checkAndRecordUsage _ _ _ _) as [[r fs'] ops].
  simpl in Hb. subst r.
  destruct b; simpl; [|eauto]. destruct (JS.dispatch _ _ _); simpl; eauto.
Qed.



(** Against C7 as it stands: the empty identifier is an identifier like
    any other to the allow-list check and to the bypass.  With [""] on the
    allow-list, or with the bypass on, the caller without an address is
    let through at its limit and the store is not consulted. *)
Lemma blank_identifier_counterexample :
  allowListed blankListed (Ecma.str "") /\
  TS.checkAndRecordUsage blankListed noon blankFull ""
  = (Ok true, blankFull, []) /\
  JS.checkAndRecordUsage blankListed noon blankFull (Ecma.str "")
  = (Ok true, blankFull, []) /\
  TS.checkAndRecordUsage debugging noon blankFull ""
  = (Ok true, blankFull, []) /\
  ~ metered "" noon blankFull
      (TS.checkAndRecordUsage blankListed noon blankFull "").
Proof.
  split; [simpl; left|].
  split; [reflexivity|]. split; [reflexivity|]. split; [reflexivity|].
  assert (Hfull : bool_decide
                    (ipCountIn blankFull "" (todayOf noon) < IP_LIMIT /\
                     globalCountIn blankFull (todayOf noon) < GLOBAL_LIMIT)
                  = false) by by_evaluation.
  unfold metered. rewrite Hfull.
  change (struck (infra noon)) with false. cbv iota.
  change (TS.checkAndRecordUsage blankListed noon blankFull "")
    with (@Ok bool true, blankFull, @nil StoreOp).
  intros H. discriminate H.
Qed.

(** C7, amended: with the bypass off and an allow-list that does not name
    the empty string, the call with the empty identifier is not taken for
    allow-listed and goes through the quota check-and-increment, under the
    document id ["_" + period]; in both files. *)
Theorem blank_identifier_metered cfg w fs :
  BYPASS_RATE_LIMITING cfg = false ->
  "" ∉ WHITELISTED_IPS cfg ->
  Ecma.arrayIncludes (WHITELISTED_IPS cfg) (Ecma.str "") = false /\
  metered "" w fs (TS.checkAndRecordUsage cfg w fs "") /\
  metered "" w fs (JS.checkAndRecordUsage cfg w fs (Ecma.str "")).
Proof.
  intros Hb Hl.
  assert (Hn : ~ allowListed cfg (Ecma.str "")) by exact Hl.
  split; [by apply arrayIncludes_not_allowListed|].
  rewrite JS_checkAndRecordUsage_str, TS_quota_path by assumption.
  split; apply quota_metered.
Qed.

Lemma blank_identifier_metered_witness :
  Ecma.arrayIncludes (WHITELISTED_IPS office) (Ecma.str "") = false /\
  metered "" noon blankFull (TS.checkAndRecordUsage office noon blankFull "") /\
  metered "" noon blankFull
    (JS.checkAndRecordUsage office noon blankFull (Ecma.str "")).
Proof.
  apply (blank_identifier_metered office noon blankFull eq_refl).
  not_listed.
Defined.

(** ** Properties of runs of calls *)

Lemma TS_serve_as_JS cfg (calls : list (string * World)) fs :
  serve (TS.checkAndRecordUsage cfg) calls fs =
  serve (JS.checkAndRecordUsage cfg)
    (map (fun call => (Ecma.str call.1, call.2)) calls) fs.
Proof.
  revert fs. induction calls as [|[c w] calls IH]; intros fs; [reflexivity|].
  simpl. rewrite JS_checkAndRecordUsage_str.
  destruct (TS.checkAndRecordUsage cfg w fs c) as [[r fs'] ops].
  by rewrite IH.
Qed.

(** C1: from a store within the limits, after every prefix of every run
    of calls (any callers, periods, infrastructure, allow-list and bypass),
    no per-caller counter exceeds 100 and no global counter exceeds 1000;
    in both files. *)
Theorem limits_never_exceeded cfg (calls : list (string * World))
    (jcalls : list (Ecma.value * World)) (n : nat) fs :
  withinLimits fs ->
  withinLimits (serve (TS.checkAndRecordUsage cfg) (take n calls) fs).2 /\
  withinLimits (serve (JS.checkAndRecordUsage cfg) (take n jcalls) fs).2.
Proof.
  intros Hfs. split.
  - rewrite TS_serve_as_JS.
    by apply (serve_withinLimits _ cfg Ecma.toString
                (Ecma.arrayIncludes (WHITELISTED_IPS cfg))
                (JS_checkAndRecordUsage_eq cfg)).
  - by apply (serve_withinLimits _ cfg Ecma.toString
                (Ecma.arrayIncludes (WHITELISTED_IPS cfg))
                (JS_checkAndRecordUsage_eq cfg)).
Qed.

Lemma nearlyFull_withinLimits : withinLimits nearlyFull.
Proof.
  intros docId. unfold nearlyFull, storeOf. simpl. split.
  - destruct (decide (ipUsageRef alice mayDay = doc "ip-usage" docId))
      as [<-|Hne].
    + rewrite lookup_insert_eq. simpl. unfold IP_LIMIT. lia.
    + rewrite lookup_insert_ne by exact Hne.
      rewrite lookup_insert_ne by apply global_ip_apart.
      rewrite lookup_empty. simpl. unfold IP_LIMIT. lia.
  - rewrite lookup_insert_ne by apply ip_global_apart.
    destruct (decide (globalUsageRef mayDay = doc "global-usage" docId))
      as [<-|Hne].
    + rewrite lookup_insert_eq. simpl. unfold GLOBAL_LIMIT. lia.
    + rewrite lookup_insert_ne by exact Hne.
      rewrite lookup_empty. simpl. unfold GLOBAL_LIMIT. lia.
Qed.

Lemma limits_never_exceeded_witness :
  withinLimits
    (serve (TS.checkAndRecordUsage office)
       (take 3 [(alice, morning); (alice, noon); (bob, noon); (bob, outage)])
       nearlyFull).2 /\
  withinLimits
    (serve (JS.checkAndRecordUsage office)
       (take 3 [(Ecma.undefined, noon); (Ecma.str alice, morning);
                (Ecma.str alice, noon); (Ecma.str bob, outage)])
       nearlyFull).2.
Proof.
  apply limits_never_exceeded. exact nearlyFull_withinLimits.
Defined.

Lemma empty_withinLimits : withinLimits ∅.
Proof.
  intros docId. rewrite !lookup_empty. simpl.
  unfold IP_LIMIT, GLOBAL_LIMIT. lia.
Qed.






(** ** Identity resolution *)

Lemma ipAddressOf_same : JS.ipAddressOf = TS.ipAddressOf.
Proof. reflexivity. Qed.

(** The TypeScript file resolves every request as the specification asks:
    the trimmed first entry of a non-empty forwarded header, else the peer
    address, else the empty string. *)
Lemma TS_identity_resolution req :
  resolvedAs req (Ecma.orEmpty (TS.ipAddressOf req)).
Proof.
  unfold resolvedAs, TS.ipAddressOf.
  destruct (xForwardedFor req) as [|[|a f]]; simpl;
    try (destruct (ip req); reflexivity).
  exists (Ecma.splitHead ","%char (String a f)).
  split; [apply splitHead_firstEntry|apply trim_trimmed].
Qed.

(** The JavaScript file does so whenever it resolves to a string, that is
    unless both the header and the peer address are missing. *)
Lemma JS_identity_resolution req s :
  JS.ipAddressOf req = Ecma.str s -> resolvedAs req s.
Proof.
  rewrite ipAddressOf_same. intros H.
  pose proof (TS_identity_resolution req) as Hr.
  by rewrite H in Hr.
Qed.

(** Where the JavaScript file resolves to a string, the two files answer
    alike and leave the same store. *)
Lemma JS_TS_agree cfg w p fs req :
  JS.ipAddressOf req <> Ecma.undefined ->
  JS.apiProxy cfg w p fs req = TS.apiProxy cfg w p fs req.
Proof.
  unfold JS.apiProxy, TS.apiProxy. rewrite ipAddressOf_same.
  destruct (TS.ipAddressOf req) as [|s]; [congruence|]. intros _.
  rewrite JS_checkAndRecordUsage_str. reflexivity.
Qed.

(** C9, at the request with neither a peer address nor a forwarded header:
    the JavaScript file resolves it to [undefined], not to the empty
    string, and meters it under the document id ["undefined_" + period];
    the TypeScript file resolves it to the empty string and meters it
    under ["_" + period]. *)
Theorem js_anonymous_is_undefined :
  JS.ipAddressOf anonymous = Ecma.undefined /\
  (JS.apiProxy nobodyListed noon echo ∅ anonymous).1.2
  = [OpGet (doc "ip-usage" "undefined_2024-05-01");
     OpGet (doc "global-usage" "2024-05-01");
     OpSet (doc "ip-usage" "undefined_2024-05-01") {| count := 1 |};
     OpSet (doc "global-usage" "2024-05-01") {| count := 1 |}] /\
  Ecma.orEmpty (TS.ipAddressOf anonymous) = "" /\
  (TS.apiProxy nobodyListed noon echo ∅ anonymous).1.2
  = [OpGet (doc "ip-usage" "_2024-05-01");
     OpGet (doc "global-usage" "2024-05-01");
     OpSet (doc "ip-usage" "_2024-05-01") {| count := 1 |};
     OpSet (doc "global-usage" "2024-05-01") {| count := 1 |}].
Proof. repeat split; by_evaluation. Qed.

(** C8, at the same request: the two files leave different stores, and on
    a store where the callers without an address are at their limit the
    TypeScript file answers 429 while the JavaScript file admittedCalls the
    request and calls the provider. *)
Theorem js_ts_diverge_without_address :
  (TS.apiProxy nobodyListed noon echo ∅ anonymous).1.1.2
  = storeOf [(doc "ip-usage" "_2024-05-01", 1);
             (doc "global-usage" "2024-05-01", 1)] /\
  (JS.apiProxy nobodyListed noon echo ∅ anonymous).1.1.2
  = storeOf [(doc "ip-usage" "undefined_2024-05-01", 1);
             (doc "global-usage" "2024-05-01", 1)] /\
  (TS.apiProxy nobodyListed noon echo ∅ anonymous).1.1.2
  <> (JS.apiProxy nobodyListed noon echo ∅ anonymous).1.1.2 /\
  (TS.apiProxy nobodyListed noon echo blankFull anonymous).1.1.1
  = Ok deny429 /\
  (JS.apiProxy nobodyListed noon echo blankFull anonymous).1.1.1
  = Ok {| status := 200; contentType := None;
          sent := SendJson "reply" "hello" |} /\
  (JS.apiProxy nobodyListed noon echo blankFull anonymous).2
  = [CallOpenAI "hello"].
Proof.
  split; [by_evaluation|].
  split; [by_evaluation|].
  split; [|repeat split; by_evaluation].
  intros H.
  apply (f_equal (fun fs : Firestore => fs !! doc "ip-usage" "_2024-05-01"))
    in H.
  vm_compute in H. discriminate H.
Qed.

(** ** Route dispatch *)

Lemma TS_dispatch_routed p path userData :
  routedInOrder path userData (Ok (TS.dispatch p path userData).1)
    (TS.dispatch p path userData).2.
Proof.
  unfold routedInOrder, TS.dispatch, TS.handleTTS, TS.handleOpenAI,
    TS.handleGemini.
  destruct (Ecma.includes path "/tts") eqn:Ht;
    [apply includes_contains in Ht|apply includes_not_contains in Ht].
  { destruct (synthesize p _); simpl; repeat split; intros; tauto. }
  destruct (Ecma.includes path "/openai") eqn:Ho;
    [apply includes_contains in Ho|apply includes_not_contains in Ho].
  { destruct (chatCompletion p _); simpl; repeat split; intros; tauto. }
  destruct (Ecma.includes path "/gemini") eqn:Hg;
    [apply includes_contains in Hg|apply includes_not_contains in Hg].
  { destruct (generateContent p _); simpl; repeat split; intros; tauto. }
  simpl. repeat split; intros; tauto.
Qed.

Lemma dispatch_same : JS.dispatch = TS.dispatch.
Proof. reflexivity. Qed.

(** C10: for an admitted request the route is the first of ["/tts"],
    ["/openai"], ["/gemini"] that occurs anywhere in the path, so a path
    with ["/tts"] in it goes to speech synthesis whatever else it
    contains, and a path with none of the three is answered 404 with
    [{"error": "Endpoint not found."}]; in both files. *)
Theorem dispatch_by_first_route cfg w p fs req :
  ((TS.checkAndRecordUsage cfg w fs (Ecma.orEmpty (TS.ipAddressOf req))).1.1
   = Ok true ->
   routedInOrder (path req) (body req)
     (TS.apiProxy cfg w p fs req).1.1.1 (TS.apiProxy cfg w p fs req).2) /\
  ((JS.checkAndRecordUsage cfg w fs (JS.ipAddressOf req)).1.1 = Ok true ->
   routedInOrder (path req) (body req)
     (JS.apiProxy cfg w p fs req).1.1.1 (JS.apiProxy cfg w p fs req).2).
Proof.
  split; intros Hadm.
  - unfold TS.apiProxy.
    destruct (TS.checkAndRecordUsage _ _ _ _) as [[r fs'] ops].
    simpl in Hadm. subst r. simpl.
    pose proof (TS_dispatch_routed p (path req) (body req)) as Hr.
    by destruct (TS.dispatch _ _ _) as [res calls].
  - unfold JS.apiProxy.
    destruct (JS.checkAndRecordUsage _ _ _ _) as [[r fs'] ops].
    simpl in Hadm. subst r. simpl. rewrite dispatch_same.
    pose proof (TS_dispatch_routed p (path req) (body req)) as Hr.
    by destruct (TS.dispatch _ _ _) as [res calls].
Qed.

Lemma dispatch_by_first_route_witness :
  routedInOrder "/v1/openai/tts" {| prompt := "read this" |}
    (TS.apiProxy office noon echo ∅ proxied).1.1.1
    (TS.apiProxy office noon echo ∅ proxied).2 /\
  routedInOrder "/v1/openai/tts" {| prompt := "read this" |}
    (JS.apiProxy office noon echo ∅ proxied).1.1.1
    (JS.apiProxy office noon echo ∅ proxied).2.
Proof.
  destruct (dispatch_by_first_route office noon echo ∅ proxied) as [HT HJ].
  split; [apply HT|apply HJ]; vm_compute; reflexivity.
Defined.

(** ** The bypass switch *)


(** X1: when the environment variable [BYPASS_RATE_LIMITING] is the string
    ["true"], every call is admitted without a store operation, whoever
    calls and whatever the counters are, and [apiProxy] goes straight to
    the dispatch; in both files. *)
Theorem bypass_admits_everyone cfg w p fs req (c : string)
    (v : Ecma.value) :
  env_BYPASS_RATE_LIMITING cfg = Ecma.str "true" ->
  TS.checkAndRecordUsage cfg w fs c = (Ok true, fs, []) /\
  JS.checkAndRecordUsage cfg w fs v = (Ok true, fs, []) /\
  TS.apiProxy cfg w p fs req
  = (Ok (TS.dispatch p (path req) (body req)).1, fs, [],
     (TS.dispatch p (path req) (body req)).2) /\
  JS.apiProxy cfg w p fs req
  = (Ok (JS.dispatch p (path req) (body req)).1, fs, [],
     (JS.dispatch p (path req) (body req)).2).
Proof.
  intros Henv.
  assert (Hb : BYPASS_RATE_LIMITING cfg = true)
    by (unfold BYPASS_RATE_LIMITING; by rewrite Henv).
  assert (HT : forall c, TS.checkAndRecordUsage cfg w fs c = (Ok true, fs, []))
    by (intros c'; by rewrite TS_checkAndRecordUsage_eq, Hb).
  assert (HJ : forall v, JS.checkAndRecordUsage cfg w fs v = (Ok true, fs, []))
    by (intros v'; by rewrite JS_checkAndRecordUsage_eq, Hb).
  split; [apply HT|]. split; [apply HJ|]. split.
  - unfold TS.apiProxy. rewrite HT. simpl.
    by destruct (TS.dispatch _ _ _).
  - unfold JS.apiProxy. rewrite HJ. simpl.
    by destruct (JS.dispatch _ _ _).
Qed.

Lemma bypass_admits_everyone_witness :
  TS.checkAndRecordUsage debugging outage blankFull ""
  = (Ok true, blankFull, []) /\
  JS.checkAndRecordUsage debugging outage blankFull Ecma.undefined
  = (Ok true, blankFull, []) /\
  TS.apiProxy debugging outage echo blankFull unknownRoute
  = (Ok (TS.dispatch echo "/health" {| prompt := "" |}).1, blankFull, [],
     (TS.dispatch echo "/health" {| prompt := "" |}).2) /\
  JS.apiProxy debugging outage echo blankFull unknownRoute
  = (Ok (JS.dispatch echo "/health" {| prompt := "" |}).1, blankFull, [],
     (JS.dispatch echo "/health" {| prompt := "" |}).2).
Proof.
  apply (bypass_admits_everyone debugging outage echo blankFull unknownRoute
           "" Ecma.undefined).
  reflexivity.
Defined.

(** ** The decision of the quota transaction *)





Lemma lookup_storeOf_other (l : list (DocumentReference * Z))
    (r : DocumentReference) :
  Forall (fun e => e.1 <> r) l -> storeOf l !! r = None.
Proof.
  unfold storeOf. induction 1 as [|[r' n] l Hne _ IH]; simpl.
  - apply lookup_empty.
  - rewrite lookup_insert_ne by exact Hne. exact IH.
Qed.


(** ** What a call looks at, and what it leaves alone *)

Lemma quota_local id w fs1 fs2 :
  fs1 !! ipUsageRef id (todayOf w) = fs2 !! ipUsageRef id (todayOf w) ->
  fs1 !! globalUsageRef (todayOf w) = fs2 !! globalUsageRef (todayOf w) ->
  (quota id w fs1).1.1 = (quota id w fs2).1.1 /\
  (quota id w fs1).2 = (quota id w fs2).2.
Proof.
  unfold quota, transactionOf.
  generalize (ipUsageRef id (todayOf w)) (globalUsageRef (todayOf w)).
  intros ri rg Hi Hg.
  unfold runTransaction, TS.updateFunction, tx_bind, tx_get, tx_set, tx_ret,
    beginTransaction.
  destruct (infra w) as [|[|[|k]]|]; simpl; rewrite ?Hi, ?Hg;
    try (split; reflexivity);
    (destruct (_ >=? IP_LIMIT); simpl;
     [|destruct (_ >=? GLOBAL_LIMIT); simpl]; split; reflexivity).
Qed.

(** X4: the decision of a call and the store operations it issues depend
    on two documents only, the caller's and the global one of the day:
    on two stores that agree on these two, the call decides alike and
    issues the same operations, whatever else the stores hold.  In both
    files. *)
Theorem decision_reads_two_documents cfg w fs1 fs2 (c : string)
    (v : Ecma.value) :
  fs1 !! globalUsageRef (todayOf w) = fs2 !! globalUsageRef (todayOf w) ->
  (fs1 !! ipUsageRef c (todayOf w) = fs2 !! ipUsageRef c (todayOf w) ->
   (TS.checkAndRecordUsage cfg w fs1 c).1.1
   = (TS.checkAndRecordUsage cfg w fs2 c).1.1 /\
   (TS.checkAndRecordUsage cfg w fs1 c).2
   = (TS.checkAndRecordUsage cfg w fs2 c).2) /\
  (fs1 !! ipUsageRef (Ecma.toString v) (todayOf w)
   = fs2 !! ipUsageRef (Ecma.toString v) (todayOf w) ->
   (JS.checkAndRecordUsage cfg w fs1 v).1.1
   = (JS.checkAndRecordUsage cfg w fs2 v).1.1 /\
   (JS.checkAndRecordUsage cfg w fs1 v).2
   = (JS.checkAndRecordUsage cfg w fs2 v).2).
Proof.
  intros Hg. split; intros Hi.
  - rewrite !TS_checkAndRecordUsage_eq.
    destruct (BYPASS_RATE_LIMITING cfg); [by split|].
    destruct (Ecma.arrayIncludes _ _); [by split|].
    by apply quota_local.
  - rewrite !JS_checkAndRecordUsage_eq.
    destruct (BYPASS_RATE_LIMITING cfg); [by split|].
    destruct (Ecma.arrayIncludes _ _); [by split|].
    by apply quota_local.
Qed.

Lemma decision_reads_two_documents_witness :
  (TS.checkAndRecordUsage office noon ∅ alice).1.1
  = (TS.checkAndRecordUsage office noon yesterdayFull alice).1.1 /\
  (TS.checkAndRecordUsage office noon ∅ alice).2
  = (TS.checkAndRecordUsage office noon yesterdayFull alice).2.
Proof.
  assert (Hg : (∅ : Firestore) !! globalUsageRef (todayOf noon)
               = yesterdayFull !! globalUsageRef (todayOf noon)).
  { rewrite lookup_empty. symmetry.
    apply lookup_storeOf_other. repeat constructor; discriminate. }
  destruct (decision_reads_two_documents office noon ∅ yesterdayFull alice
              Ecma.undefined Hg) as [HT _].
  apply HT. rewrite lookup_empty. symmetry.
  apply lookup_storeOf_other. repeat constructor; discriminate.
Defined.

Lemma append_same_length_inj (a b s t : string) :
  String.length s = String.length t ->
  a +:+ s = b +:+ t -> a = b /\ s = t.
Proof.
  intros Hlen. revert b.
  induction a as [|x a IH]; intros [|y b] H; rewrite ?append_nil_l,
    ?append_cons in H.
  - by split.
  - apply (f_equal String.length) in H. simpl in H.
    rewrite append_length in H. lia.
  - apply (f_equal String.length) in H. simpl in H.
    rewrite append_length in H. lia.
  - injection H as -> H. destruct (IH b H) as [-> ->]. by split.
Qed.

(** Document ids of periods of one length, as the dates [YYYY-MM-DD] are,
    never collide: the id tells the caller and the period. *)
Lemma ipUsageRef_inj_period (a b s t : string) :
  String.length s = String.length t ->
  ipUsageRef a s = ipUsageRef b t -> a = b /\ s = t.
Proof.
  intros Hlen H. unfold ipUsageRef, doc in H. injection H as H.
  apply append_same_length_inj in H;
    [|rewrite !append_length; by rewrite Hlen].
  destruct H as [-> H]. rewrite !append_cons, !append_nil_l in H.
  injection H as ->. by split.
Qed.

Lemma quota_frame id w fs (r : DocumentReference) :
  r <> ipUsageRef id (todayOf w) -> r <> globalUsageRef (todayOf w) ->
  (quota id w fs).1.2 !! r = fs !! r.
Proof.
  intros Hi Hg.
  destruct (quota_allOrNothing id w fs) as [(_ & -> )|(_ & _ & _ & H)];
    [reflexivity|by apply H].
Qed.

(** X5: a call of one day leaves the documents of every other day as they
    were, for every caller: the counters of a day are out of reach of the
    calls of the next.  The two periods are of one length, as two dates
    are.  In both files. *)
Theorem other_days_untouched cfg w fs (c : string) (v : Ecma.value)
    (id day : string) :
  String.length day = String.length (todayOf w) ->
  day <> todayOf w ->
  ((TS.checkAndRecordUsage cfg w fs c).1.2 !! ipUsageRef id day
   = fs !! ipUsageRef id day /\
   (TS.checkAndRecordUsage cfg w fs c).1.2 !! globalUsageRef day
   = fs !! globalUsageRef day) /\
  ((JS.checkAndRecordUsage cfg w fs v).1.2 !! ipUsageRef id day
   = fs !! ipUsageRef id day /\
   (JS.checkAndRecordUsage cfg w fs v).1.2 !! globalUsageRef day
   = fs !! globalUsageRef day).
Proof.
  intros Hlen Hne.
  assert (Hq : forall id',
    (quota id' w fs).1.2 !! ipUsageRef id day = fs !! ipUsageRef id day /\
    (quota id' w fs).1.2 !! globalUsageRef day = fs !! globalUsageRef day).
  { intros id'. split; apply quota_frame.
    - intros H. by apply ipUsageRef_inj_period in H as [_ H].
    - apply ip_global_apart.
    - apply global_ip_apart.
    - unfold globalUsageRef, doc. intros H. by injection H. }
  split.
  - rewrite TS_checkAndRecordUsage_eq.
    destruct (BYPASS_RATE_LIMITING cfg); [by split|].
    destruct (Ecma.arrayIncludes _ _); [by split|]. apply Hq.
  - rewrite JS_checkAndRecordUsage_eq.
    destruct (BYPASS_RATE_LIMITING cfg); [by split|].
    destruct (Ecma.arrayIncludes _ _); [by split|]. apply Hq.
Qed.

Lemma other_days_untouched_witness :
  ((TS.checkAndRecordUsage office noon yesterdayFull alice).1.2
     !! ipUsageRef alice aprilEnd
   = yesterdayFull !! ipUsageRef alice aprilEnd /\
   (TS.checkAndRecordUsage office noon yesterdayFull alice).1.2
     !! globalUsageRef aprilEnd
   = yesterdayFull !! globalUsageRef aprilEnd) /\
  ((JS.checkAndRecordUsage office noon yesterdayFull (Ecma.str alice)).1.2
     !! ipUsageRef alice aprilEnd
   = yesterdayFull !! ipUsageRef alice aprilEnd /\
   (JS.checkAndRecordUsage office noon yesterdayFull (Ecma.str alice)).1.2
     !! globalUsageRef aprilEnd
   = yesterdayFull !! globalUsageRef aprilEnd).
Proof.
  apply (other_days_untouched office noon yesterdayFull alice
           (Ecma.str alice) alice aprilEnd).
  - reflexivity.
  - discriminate.
Defined.

Lemma splitHead_append (sep : ascii) (e rest : string) :
  ~ mentions sep e ->
  Ecma.splitHead sep (e +:+ String sep rest) = e.
Proof.
  induction e as [|c e IH]; intros Hno; rewrite ?append_nil_l, ?append_cons;
    simpl.
  - by rewrite Ascii.eqb_refl.
  - simpl in Hno. destruct (Ascii.eqb_spec c sep) as [->|_]; [tauto|].
    f_equal. apply IH. tauto.
Qed.

Lemma splitHead_whole (sep : ascii) (s : string) :
  ~ mentions sep s -> Ecma.splitHead sep s = s.
Proof.
  induction s as [|c s IH]; intros Hno; simpl; [reflexivity|].
  simpl in Hno. destruct (Ascii.eqb_spec c sep) as [->|_]; [tauto|].
  f_equal. apply IH. tauto.
Qed.

(** X6: the period of a call is what stands before the first [T] of the
    clock's ISO string, so all instants of one date fall in one period,
    whatever the time of day; of a clock string without a [T] the period
    is the whole string. *)
Theorem period_is_the_date (date time : string) (i : Infra) :
  ~ mentions "T"%char date ->
  todayOf {| isoNow := date +:+ "T" +:+ time; infra := i |} = date /\
  todayOf {| isoNow := date; infra := i |} = date.
Proof.
  intros Hno. unfold todayOf. simpl. split.
  - by apply (splitHead_append "T"%char date time).
  - by apply splitHead_whole.
Qed.

Lemma period_is_the_date_witness :
  todayOf {| isoNow := "2024-05-01" +:+ "T" +:+ "23:59:59.999Z";
             infra := Healthy |} = "2024-05-01" /\
  todayOf {| isoNow := "2024-05-01"; infra := Healthy |} = "2024-05-01".
Proof.
  apply (period_is_the_date "2024-05-01" "23:59:59.999Z" Healthy).
  simpl. intros H. repeat (destruct H as [H|H]; [discriminate H|]). exact H.
Defined.

(** ** The answers of [apiProxy] *)







(** ** The identifier: what a header can make of it *)

Lemma mentions_append_l (c : ascii) (a b : string) :
  mentions c a -> mentions c (a +:+ b).
Proof.
  induction a as [|x a IH]; rewrite ?append_nil_l, ?append_cons; simpl;
    tauto.
Qed.

Lemma mentions_append_r (c : ascii) (a b : string) :
  mentions c b -> mentions c (a +:+ b).
Proof.
  induction a as [|x a IH]; rewrite ?append_nil_l, ?append_cons; simpl;
    tauto.
Qed.

(** X10: a non-empty forwarded header decides the identifier alone, the
    peer address is not looked at; the identifier taken from it holds no
    comma and neither starts nor ends with white space.  In both files. *)
Theorem header_identifier_normalised req req' :
  xForwardedFor req = xForwardedFor req' ->
  xForwardedFor req <> Ecma.undefined ->
  xForwardedFor req <> Ecma.str "" ->
  TS.ipAddressOf req = TS.ipAddressOf req' /\
  JS.ipAddressOf req = JS.ipAddressOf req' /\
  exists s,
    TS.ipAddressOf req = Ecma.str s /\ JS.ipAddressOf req = Ecma.str s /\
    ~ mentions ","%char s /\ ~ startsWhite s /\ ~ endsWhite s.
Proof.
  intros Hsame Hdef Hne. rewrite ipAddressOf_same.
  unfold TS.ipAddressOf. rewrite <- Hsame.
  destruct (xForwardedFor req) as [|[|a f]]; try congruence.
  split; [reflexivity|]. split; [reflexivity|].
  exists (Ecma.trim (Ecma.splitHead ","%char (String a f))).
  split; [reflexivity|]. split; [reflexivity|].
  destruct (splitHead_firstEntry ","%char (String a f)) as [Hno _].
  destruct (trim_trimmed (Ecma.splitHead ","%char (String a f)))
    as ((l & t & Heq & _) & Hs & He).
  split; [|by split].
  intros Hm. apply Hno. rewrite Heq.
  apply mentions_append_r, mentions_append_l, Hm.
Qed.

Lemma header_identifier_normalised_witness :
  TS.ipAddressOf proxied
  = TS.ipAddressOf
      {| ip := Ecma.undefined; xForwardedFor := xForwardedFor proxied;
         path := "/tts"; body := {| prompt := "" |} |} /\
  JS.ipAddressOf proxied
  = JS.ipAddressOf
      {| ip := Ecma.undefined; xForwardedFor := xForwardedFor proxied;
         path := "/tts"; body := {| prompt := "" |} |} /\
  exists s,
    TS.ipAddressOf proxied = Ecma.str s /\
    JS.ipAddressOf proxied = Ecma.str s /\
    ~ mentions ","%char s /\ ~ startsWhite s /\ ~ endsWhite s.
Proof.
  apply header_identifier_normalised; [reflexivity|discriminate|discriminate].
Defined.

(** X11: in the JavaScript file the request without any address and a
    request whose address reads ["undefined"] are one caller to the quota:
    unless ["undefined"] is on the allow-list, the two calls give the same
    decision, the same store and the same operations, so each spends the
    other's allowance. *)
Theorem js_undefined_shares_a_counter cfg w fs :
  "undefined" ∉ WHITELISTED_IPS cfg ->
  JS.checkAndRecordUsage cfg w fs Ecma.undefined
  = JS.checkAndRecordUsage cfg w fs (Ecma.str "undefined").
Proof.
  intros Hl. rewrite !JS_checkAndRecordUsage_eq.
  assert (Ecma.arrayIncludes (WHITELISTED_IPS cfg) (Ecma.str "undefined")
          = false) as -> by by apply arrayIncludes_not_allowListed.
  reflexivity.
Qed.

Lemma js_undefined_shares_a_counter_witness :
  JS.checkAndRecordUsage office noon nearlyFull Ecma.undefined
  = JS.checkAndRecordUsage office noon nearlyFull (Ecma.str "undefined").
Proof.
  apply js_undefined_shares_a_counter. not_listed.
Defined.

(** ** Runs of calls: what the counters add up to *)

Section Runs.

Context {Client : Type} `{EqDecision Client}.

Variable admission :
  World -> Firestore -> Client -> Result bool * Firestore * list StoreOp.
Variable cfg : Config.
Variable idOf : Client -> string.
Variable listed : Client -> bool.

Hypothesis admission_eq : forall w fs c,
  admission w fs c =
  if BYPASS_RATE_LIMITING cfg then (Ok true, fs, [])
  else if listed c then (Ok true, fs, [])
  else quota (idOf c) w fs.

Let step := admission_step admission cfg idOf listed admission_eq.

Lemma globalUsageRef_inj (s t : string) :
  globalUsageRef s = globalUsageRef t -> s = t.
Proof. unfold globalUsageRef, doc. intros H. by injection H. Qed.

(** The global counter of a day moves with the admitted calls of that day
    by callers the allow-list leaves to the quota, and with nothing
    else. *)
Lemma serve_global_counts today calls fs :
  BYPASS_RATE_LIMITING cfg = false ->
  globalCountIn (serve admission calls fs).2 today =
  globalCountIn fs today
  + Z.of_nat (meteredIn (fun c => negb (listed c)) today calls
                (serve admission calls fs).1).
Proof.
  intros Hb. revert fs.
  induction calls as [|[c w] calls IH]; intros fs; [simpl; lia|].
  simpl.
  destruct (step w fs c)
    as [(b & ops & Heq & Hb')|(_ & Hl & Hi & Hg & ops & Heq)];
    rewrite Heq;
    match goal with
    | |- context [serve admission calls ?f] =>
        specialize (IH f); destruct (serve admission calls f) as [rs fs'']
    end;
    simpl in *; rewrite IH.
  - destruct b; [|rewrite andb_false_r; lia].
    destruct (Hb' eq_refl) as [Hc|Hc]; [congruence|].
    rewrite Hc. simpl. lia.
  - rewrite Hl, andb_true_r. simpl. unfold globalCountIn at 1.
    destruct (String.eqb_spec (todayOf w) today) as [->|Hne].
    + rewrite lookup_insert_eq. simpl. lia.
    + rewrite lookup_insert_ne
        by (intros H'; by apply globalUsageRef_inj in H').
      rewrite lookup_insert_ne by apply ip_global_apart.
      unfold globalCountIn. lia.
Qed.

(** Documents stay and counters do not go down. *)
Lemma serve_grows calls fs (r : DocumentReference) :
  countOf (fs !! r) <= countOf ((serve admission calls fs).2 !! r) /\
  (is_Some (fs !! r) -> is_Some ((serve admission calls fs).2 !! r)).
Proof.
  revert fs. induction calls as [|[c w] calls IH]; intros fs;
    [simpl; split; [lia|tauto]|].
  simpl.
  assert (Hstep : countOf (fs !! r) <= countOf ((admission w fs c).1.2 !! r)
                  /\ (is_Some (fs !! r) ->
                      is_Some ((admission w fs c).1.2 !! r))).
  { destruct (step w fs c)
      as [(b & ops & -> & _)|(_ & _ & Hi & Hg & ops & ->)];
      [simpl; split; [lia|tauto]|].
    simpl. unfold ipCountIn, globalCountIn.
    destruct (decide (globalUsageRef (todayOf w) = r)) as [<-|Hg'].
    { rewrite lookup_insert_eq. simpl. split; [lia|eauto]. }
    rewrite lookup_insert_ne by exact Hg'.
    destruct (decide (ipUsageRef (idOf c) (todayOf w) = r)) as [<-|Hi'].
    { rewrite lookup_insert_eq. simpl. split; [lia|eauto]. }
    rewrite lookup_insert_ne by exact Hi'. split; [lia|tauto]. }
  destruct (admission w fs c) as [[res fs'] ops]. simpl in Hstep.
  specialize (IH fs'). destruct (serve admission calls fs') as [rs fs''].
  simpl in *. split; [lia|tauto].
Qed.


End Runs.

(** X12: the global counter of a day is an exact account of the day's
    metered admissions.  With the bypass off, after any run of calls (any
    callers, days and infrastructure) it has moved by the number of calls
    of that day that were admitted for callers not on the allow-list;
    denied calls, failed transactions, allow-listed callers and calls of
    other days do not move it.  In both files. *)
Theorem global_counter_counts_metered cfg today
    (calls : list (string * World)) (jcalls : list (Ecma.value * World)) fs :
  BYPASS_RATE_LIMITING cfg = false ->
  globalCountIn (serve (TS.checkAndRecordUsage cfg) calls fs).2 today
  = globalCountIn fs today
    + Z.of_nat
        (meteredIn (fun c => unlistedIn cfg (Ecma.str c)) today calls
           (serve (TS.checkAndRecordUsage cfg) calls fs).1) /\
  globalCountIn (serve (JS.checkAndRecordUsage cfg) jcalls fs).2 today
  = globalCountIn fs today
    + Z.of_nat
        (meteredIn (unlistedIn cfg) today jcalls
           (serve (JS.checkAndRecordUsage cfg) jcalls fs).1).
Proof.
  intros Hb. split.
  - exact (serve_global_counts (TS.checkAndRecordUsage cfg) cfg (fun c => c)
             (fun c => Ecma.arrayIncludes (WHITELISTED_IPS cfg) (Ecma.str c))
             (TS_checkAndRecordUsage_eq cfg) today calls fs Hb).
  - exact (serve_global_counts (JS.checkAndRecordUsage cfg) cfg Ecma.toString
             (Ecma.arrayIncludes (WHITELISTED_IPS cfg))
             (JS_checkAndRecordUsage_eq cfg) today jcalls fs Hb).
Qed.

Lemma global_counter_counts_metered_witness :
  (let calls :=
     [(alice, morning); ("203.0.113.7", noon); (bob, outage); (bob, noon)] in
   globalCountIn (serve (TS.checkAndRecordUsage office) calls ∅).2 mayDay
   = globalCountIn ∅ mayDay
     + Z.of_nat
         (meteredIn (fun c => unlistedIn office (Ecma.str c)) mayDay calls
            (serve (TS.checkAndRecordUsage office) calls ∅).1)) /\
  (let jcalls := [(Ecma.undefined, morning); (Ecma.str bob, readTimeout)] in
   globalCountIn (serve (JS.checkAndRecordUsage office) jcalls ∅).2 mayDay
   = globalCountIn ∅ mayDay
     + Z.of_nat
         (meteredIn (unlistedIn office) mayDay jcalls
            (serve (JS.checkAndRecordUsage office) jcalls ∅).1)).
Proof.
  apply (global_counter_counts_metered office mayDay
           [(alice, morning); ("203.0.113.7", noon); (bob, outage);
            (bob, noon)]
           [(Ecma.undefined, morning); (Ecma.str bob, readTimeout)] ∅).
  reflexivity.
Defined.

(** X13: no day admits more than the global limit through the quota.
    From a store within the limits and with the bypass off, the number of
    a day's admitted calls by callers not on the allow-list, in any run,
    is at most what the day's global counter had left of 1000; in both
    files. *)
Theorem daily_admissions_bounded cfg today
    (calls : list (string * World)) (jcalls : list (Ecma.value * World)) fs :
  BYPASS_RATE_LIMITING cfg = false ->
  withinLimits fs ->
  Z.of_nat
    (meteredIn (fun c => unlistedIn cfg (Ecma.str c)) today calls
       (serve (TS.checkAndRecordUsage cfg) calls fs).1)
  <= GLOBAL_LIMIT - globalCountIn fs today /\
  Z.of_nat
    (meteredIn (unlistedIn cfg) today jcalls
       (serve (JS.checkAndRecordUsage cfg) jcalls fs).1)
  <= GLOBAL_LIMIT - globalCountIn fs today.
Proof.
  intros Hb Hfs.
  destruct (global_counter_counts_metered cfg today calls jcalls fs Hb)
    as [HT HJ].
  pose proof (serve_withinLimits (TS.checkAndRecordUsage cfg) cfg
                (fun c => c)
                (fun c => Ecma.arrayIncludes (WHITELISTED_IPS cfg)
                            (Ecma.str c))
                (TS_checkAndRecordUsage_eq cfg) calls fs Hfs today)
    as [_ HTlim].
  pose proof (serve_withinLimits (JS.checkAndRecordUsage cfg) cfg
                Ecma.toString (Ecma.arrayIncludes (WHITELISTED_IPS cfg))
                (JS_checkAndRecordUsage_eq cfg) jcalls fs Hfs today)
    as [_ HJlim].
  unfold globalCountIn, globalUsageRef in *. lia.
Qed.

Lemma daily_admissions_bounded_witness :
  (let calls := [(alice, morning); (bob, noon); (bob, noon)] in
   Z.of_nat
     (meteredIn (fun c => unlistedIn office (Ecma.str c)) mayDay calls
        (serve (TS.checkAndRecordUsage office) calls nearlyFull).1)
   <= GLOBAL_LIMIT - globalCountIn nearlyFull mayDay) /\
  (let jcalls := [(Ecma.undefined, morning); (Ecma.str bob, noon)] in
   Z.of_nat
     (meteredIn (unlistedIn office) mayDay jcalls
        (serve (JS.checkAndRecordUsage office) jcalls nearlyFull).1)
   <= GLOBAL_LIMIT - globalCountIn nearlyFull mayDay).
Proof.
  apply (daily_admissions_bounded office mayDay
           [(alice, morning); (bob, noon); (bob, noon)]
           [(Ecma.undefined, morning); (Ecma.str bob, noon)] nearlyFull).
  - reflexivity.
  - exact nearlyFull_withinLimits.
Defined.

(** X14: nothing is ever taken back.  After any run of calls every
    document of the store is still there and no counter is lower than it
    was, whatever the configuration, the callers, the days and the
    infrastructure; in both files. *)
Theorem store_only_grows cfg (calls : list (string * World))
    (jcalls : list (Ecma.value * World)) fs (r : DocumentReference) :
  (countOf (fs !! r)
   <= countOf ((serve (TS.checkAndRecordUsage cfg) calls fs).2 !! r) /\
   (is_Some (fs !! r) ->
    is_Some ((serve (TS.checkAndRecordUsage cfg) calls fs).2 !! r))) /\
  (countOf (fs !! r)
   <= countOf ((serve (JS.checkAndRecordUsage cfg) jcalls fs).2 !! r) /\
   (is_Some (fs !! r) ->
    is_Some ((serve (JS.checkAndRecordUsage cfg) jcalls fs).2 !! r))).
Proof.
  split.
  - exact (serve_grows (TS.checkAndRecordUsage cfg) cfg (fun c => c)
             (fun c => Ecma.arrayIncludes (WHITELISTED_IPS cfg) (Ecma.str c))
             (TS_checkAndRecordUsage_eq cfg) calls fs r).
  - exact (serve_grows (JS.checkAndRecordUsage cfg) cfg Ecma.toString
             (Ecma.arrayIncludes (WHITELISTED_IPS cfg))
             (JS_checkAndRecordUsage_eq cfg) jcalls fs r).
Qed.



(** X16: no caller is admitted more than the per-caller limit in a day.
    From a store within the limits and with the bypass off, in a run of
    calls of one day the admitted calls of a caller that is not
    allow-listed number at most what the caller's counter had left of 100,
    whatever other callers do in between.  In both files; in the
    JavaScript file no other caller of the run shares the caller's
    document id. *)
Theorem caller_admissions_bounded cfg today (c : string) (v : Ecma.value)
    (calls : list (string * World)) (jcalls : list (Ecma.value * World)) fs :
  BYPASS_RATE_LIMITING cfg = false ->
  withinLimits fs ->
  (~ allowListed cfg (Ecma.str c) ->
   Forall (fun call => todayOf call.2 = today) calls ->
   Z.of_nat
     (admittedCalls c calls (serve (TS.checkAndRecordUsage cfg) calls fs).1)
   <= IP_LIMIT - ipCountIn fs c today) /\
  (~ allowListed cfg v ->
   Forall (fun call => todayOf call.2 = today) jcalls ->
   Forall (fun call => Ecma.toString call.1 = Ecma.toString v -> call.1 = v)
     jcalls ->
   Z.of_nat
     (admittedCalls v jcalls (serve (JS.checkAndRecordUsage cfg) jcalls fs).1)
   <= IP_LIMIT - ipCountIn fs (Ecma.toString v) today).
Proof.
  intros Hb Hfs. split.
  - intros Hl Hday.
    pose proof (serve_counts (TS.checkAndRecordUsage cfg) cfg (fun c => c)
                  (fun c => Ecma.arrayIncludes (WHITELISTED_IPS cfg)
                              (Ecma.str c))
                  (TS_checkAndRecordUsage_eq cfg) c today calls fs Hb) as Hn.
    pose proof (serve_withinLimits (TS.checkAndRecordUsage cfg) cfg
                  (fun c => c)
                  (fun c => Ecma.arrayIncludes (WHITELISTED_IPS cfg)
                              (Ecma.str c))
                  (TS_checkAndRecordUsage_eq cfg) calls fs Hfs
                  (c +:+ "_" +:+ today)) as [Hlim _].
    unfold ipCountIn, ipUsageRef in *. rewrite Hn in Hlim; [lia| | |auto].
    + by apply arrayIncludes_not_allowListed.
    + intros c' w Hin. by apply (proj1 (Forall_forall _ _) Hday (c', w)).
  - intros Hl Hday Hown.
    pose proof (serve_counts (JS.checkAndRecordUsage cfg) cfg Ecma.toString
                  (Ecma.arrayIncludes (WHITELISTED_IPS cfg))
                  (JS_checkAndRecordUsage_eq cfg) v today jcalls fs Hb) as Hn.
    pose proof (serve_withinLimits (JS.checkAndRecordUsage cfg) cfg
                  Ecma.toString (Ecma.arrayIncludes (WHITELISTED_IPS cfg))
                  (JS_checkAndRecordUsage_eq cfg) jcalls fs Hfs
                  (Ecma.toString v +:+ "_" +:+ today)) as [Hlim _].
    unfold ipCountIn, ipUsageRef in *. rewrite Hn in Hlim; [lia| | |].
    + by apply arrayIncludes_not_allowListed.
    + intros v' w Hin. by apply (proj1 (Forall_forall _ _) Hday (v', w)).
    + intros v' w Hin. by apply (proj1 (Forall_forall _ _) Hown (v', w)).
Qed.

Lemma caller_admissions_bounded_witness :
  (let calls := [(alice, morning); (bob, noon); (alice, noon)] in
   Z.of_nat
     (admittedCalls alice calls
        (serve (TS.checkAndRecordUsage office) calls nearlyFull).1)
   <= IP_LIMIT - ipCountIn nearlyFull alice mayDay) /\
  (let jcalls := [(Ecma.str alice, morning); (Ecma.str alice, noon)] in
   Z.of_nat
     (admittedCalls (Ecma.str alice) jcalls
        (serve (JS.checkAndRecordUsage office) jcalls nearlyFull).1)
   <= IP_LIMIT - ipCountIn nearlyFull alice mayDay).
Proof.
  destruct (caller_admissions_bounded office mayDay alice (Ecma.str alice)
              [(alice, morning); (bob, noon); (alice, noon)]
              [(Ecma.str alice, morning); (Ecma.str alice, noon)]
              nearlyFull eq_refl nearlyFull_withinLimits) as [HT HJ].
  split.
  - apply HT; [not_listed|repeat constructor].
  - apply HJ; [not_listed|repeat constructor|].
    repeat constructor; intros _; reflexivity.
Defined.

(** ** The handlers behind the routes *)

Lemma TS_dispatch_tts p path userData :
  contains path "/tts" ->
  (TS.dispatch p path userData).1
  = match synthesize p (prompt userData) with
    | Ok audio => spoken audio
    | Threw _ => error500
    end.
Proof.
  intros Ht. apply includes_contains in Ht.
  unfold TS.dispatch, TS.handleTTS. rewrite Ht.
  by destruct (synthesize p _).
Qed.

Lemma TS_dispatch_openai p path userData :
  ~ contains path "/tts" -> contains path "/openai" ->
  (TS.dispatch p path userData).1
  = match chatCompletion p (prompt userData) with
    | Ok text => replied text
    | Threw _ => error500
    end.
Proof.
  intros Ht Ho. apply includes_not_contains in Ht.
  apply includes_contains in Ho.
  unfold TS.dispatch, TS.handleOpenAI. rewrite Ht, Ho.
  by destruct (chatCompletion p _).
Qed.

Lemma TS_dispatch_gemini p path userData :
  ~ contains path "/tts" -> ~ contains path "/openai" ->
  contains path "/gemini" ->
  (TS.dispatch p path userData).1
  = match generateContent p (prompt userData) with
    | Ok text => replied text
    | Threw _ => error500
    end.
Proof.
  intros Ht Ho Hg. apply includes_not_contains in Ht, Ho.
  apply includes_contains in Hg.
  unfold TS.dispatch, TS.handleGemini. rewrite Ht, Ho, Hg.
  by destruct (generateContent p _).
Qed.

(** X17: on the chat route (a path with ["/openai"] and without ["/tts"])
    the one request sent carries the prompt as the only message, of role
    ["user"], for the model ["gpt-4o"], with the key in the
    [Authorization] header.  The answer is a 200 whose [reply] is the text
    of the first choice, whatever the other choices are; a reply without
    any choice, like a failed request, gives the 500.  In both files. *)
Theorem chat_reply_is_first_choice env net path userData :
  ~ contains path "/tts" -> contains path "/openai" ->
  (forall choice others,
     chatRequest env net (prompt userData)
     = Ok {| Wire.choices := choice :: others |} ->
     (TS.dispatch (TSHandlers.providers env net) path userData).1
     = replied (Wire.replyContent (Wire.message choice)) /\
     (JS.dispatch (JSHandlers.providers env net) path userData).1
     = replied (Wire.replyContent (Wire.message choice))) /\
  (chatRequest env net (prompt userData) = Ok {| Wire.choices := [] |} \/
   (exists e, chatRequest env net (prompt userData) = Threw e) ->
   (TS.dispatch (TSHandlers.providers env net) path userData).1 = error500 /\
   (JS.dispatch (JSHandlers.providers env net) path userData).1 = error500).
Proof.
  intros Ht Ho. rewrite dispatch_same.
  rewrite !(TS_dispatch_openai _ path userData Ht Ho). simpl.
  unfold TSHandlers.handleOpenAI, JSHandlers.handleOpenAI.
  fold (chatRequest env net (prompt userData)).
  split.
  - intros choice others ->. by split.
  - intros [->|[e ->]]; by split.
Qed.

Lemma chat_reply_is_first_choice_witness :
  (TS.dispatch (TSHandlers.providers noKeys twoChoices) "/v2/openai"
     {| prompt := "hello" |}).1 = replied "first" /\
  (JS.dispatch (JSHandlers.providers noKeys twoChoices) "/v2/openai"
     {| prompt := "hello" |}).1 = replied "first".
Proof.
  assert (Ht : ~ contains "/v2/openai" "/tts")
    by (by apply includes_not_contains).
  assert (Ho : contains "/v2/openai" "/openai")
    by (by apply includes_contains).
  destruct (chat_reply_is_first_choice noKeys twoChoices "/v2/openai"
              {| prompt := "hello" |} Ht Ho) as [Hfirst _].
  exact (Hfirst _ _ eq_refl).
Defined.

(** X18: on the speech route (a path with ["/tts"]) the one request sent
    carries the prompt as the text to speak, for the voice
    ["en-GB-Chirp3-HD-Algenib"] and the encoding ["MP3"], with the key in
    the URL.  The audio of the reply is the body of a 200 of type
    [text/plain], unchanged, and a failed request gives the 500.  The two
    files differ in the request only: the TypeScript file asks for the
    speaking rate 0.9, the JavaScript file for none. *)
Theorem speech_passes_through env net path userData :
  contains path "/tts" ->
  (TS.dispatch (TSHandlers.providers env net) path userData).1
  = match speechRequest env net
            (Some {| Wire.digits := 9; Wire.scale := 1 |}) (prompt userData)
    with
    | Ok response => spoken (Wire.audioContent response)
    | Threw _ => error500
    end /\
  (JS.dispatch (JSHandlers.providers env net) path userData).1
  = match speechRequest env net None (prompt userData) with
    | Ok response => spoken (Wire.audioContent response)
    | Threw _ => error500
    end.
Proof.
  intros Ht. rewrite dispatch_same.
  rewrite !(TS_dispatch_tts _ path userData Ht). simpl.
  unfold TSHandlers.handleTTS, JSHandlers.handleTTS, speechRequest.
  split; by destruct (postTTS net _ _).
Qed.

Lemma speech_passes_through_witness :
  (TS.dispatch (TSHandlers.providers noKeys twoChoices) "/api/tts/openai"
     {| prompt := "read" |}).1
  = match speechRequest noKeys twoChoices
            (Some {| Wire.digits := 9; Wire.scale := 1 |}) "read" with
    | Ok response => spoken (Wire.audioContent response)
    | Threw _ => error500
    end /\
  (JS.dispatch (JSHandlers.providers noKeys twoChoices) "/api/tts/openai"
     {| prompt := "read" |}).1
  = match speechRequest noKeys twoChoices None "read" with
    | Ok response => spoken (Wire.audioContent response)
    | Threw _ => error500
    end.
Proof.
  apply (speech_passes_through noKeys twoChoices "/api/tts/openai"
           {| prompt := "read" |}).
  by apply includes_contains.
Defined.

(** X19: on the Gemini route of the TypeScript file (a path with
    ["/gemini"] and with neither ["/tts"] nor ["/openai"]) a reply without
    text is answered like an empty one, a 200 with the empty [reply], not
    an error; a reply with a text is answered with that text, and a
    failed request with the 500. *)
Theorem gemini_without_text_is_empty net env path userData :
  ~ contains path "/tts" -> ~ contains path "/openai" ->
  contains path "/gemini" ->
  (geminiRequest net (prompt userData) = Ok Ecma.undefined ->
   (TS.dispatch (TSHandlers.providers env net) path userData).1
   = replied "") /\
  (forall text,
     geminiRequest net (prompt userData) = Ok (Ecma.str text) ->
     (TS.dispatch (TSHandlers.providers env net) path userData).1
     = replied text) /\
  (forall e,
     geminiRequest net (prompt userData) = Threw e ->
     (TS.dispatch (TSHandlers.providers env net) path userData).1
     = error500).
Proof.
  intros Ht Ho Hg.
  rewrite (TS_dispatch_gemini _ path userData Ht Ho Hg). simpl.
  unfold TSHandlers.handleGemini. fold (geminiRequest net (prompt userData)).
  repeat split; intros; by rewrite H.
Qed.

Lemma gemini_without_text_is_empty_witness :
  (TS.dispatch (TSHandlers.providers noKeys twoChoices) "/gemini"
     {| prompt := "hi" |}).1 = replied "".
Proof.
  assert (Ht : ~ contains "/gemini" "/tts")
    by (by apply includes_not_contains).
  assert (Ho : ~ contains "/gemini" "/openai")
    by (by apply includes_not_contains).
  assert (Hg : contains "/gemini" "/gemini")
    by (by apply includes_contains).
  destruct (gemini_without_text_is_empty twoChoices noKeys "/gemini"
              {| prompt := "hi" |} Ht Ho Hg) as [Hnone _].
  by apply Hnone.
Defined.

(** ** The allow-list, seen from the store and from the header *)




(** X21: the allow-list is open to whoever writes the forwarded header.
    A request whose [X-Forwarded-For] is not empty and whose first entry,
    trimmed, is an entry of the allow-list is admitted without a store
    operation and goes to the dispatch, whatever its peer address, the
    counters and the infrastructure are; in both files. *)
Theorem forwarded_header_claims_allow_list cfg w p fs req (f : string) :
  xForwardedFor req = Ecma.str f ->
  f <> "" ->
  Ecma.trim (Ecma.splitHead ","%char f) ∈ WHITELISTED_IPS cfg ->
  TS.apiProxy cfg w p fs req
  = (Ok (TS.dispatch p (path req) (body req)).1, fs, [],
     (TS.dispatch p (path req) (body req)).2) /\
  JS.apiProxy cfg w p fs req
  = (Ok (JS.dispatch p (path req) (body req)).1, fs, [],
     (JS.dispatch p (path req) (body req)).2).
Proof.
  intros Hf Hne Hin.
  assert (Hid : TS.ipAddressOf req
                = Ecma.str (Ecma.trim (Ecma.splitHead ","%char f))).
  { unfold TS.ipAddressOf. rewrite Hf. by destruct f. }
  destruct (allow_listed_always_admitted cfg w fs
              (Ecma.trim (Ecma.splitHead ","%char f))
              (Ecma.str (Ecma.trim (Ecma.splitHead ","%char f))))
    as [HT HJ].
  split.
  - unfold TS.apiProxy. rewrite Hid. simpl Ecma.orEmpty.
    rewrite (HT Hin). simpl. by destruct (TS.dispatch _ _ _).
  - unfold JS.apiProxy. rewrite ipAddressOf_same, Hid.
    rewrite (HJ Hin). simpl. by destruct (JS.dispatch _ _ _).
Qed.

Lemma forwarded_header_claims_allow_list_witness :
  let req := {| ip := Ecma.str bob;
                xForwardedFor := Ecma.str " 203.0.113.7 , 10.0.0.1";
                path := "/openai"; body := {| prompt := "hi" |} |} in
  TS.apiProxy office outage echo dayFull req
  = (Ok (TS.dispatch echo "/openai" {| prompt := "hi" |}).1, dayFull, [],
     (TS.dispatch echo "/openai" {| prompt := "hi" |}).2) /\
  JS.apiProxy office outage echo dayFull req
  = (Ok (JS.dispatch echo "/openai" {| prompt := "hi" |}).1, dayFull, [],
     (JS.dispatch echo "/openai" {| prompt := "hi" |}).2).
Proof.
  apply (forwarded_header_claims_allow_list office outage echo dayFull
           {| ip := Ecma.str bob;
              xForwardedFor := Ecma.str " 203.0.113.7 , 10.0.0.1";
              path := "/openai"; body := {| prompt := "hi" |} |}
           " 203.0.113.7 , 10.0.0.1").
  - reflexivity.
  - discriminate.
  - simpl. left.
Defined.
